(** * SideDrawer widget for Zoho CRM: credentials, session and API gating

    A shallow embedding of the credential code ([app/setup-api.js]), of the
    session controller shown in [SESSION-MANAGEMENT.md] and of the REST helper
    class [SideDrawerAPI], followed by the properties of the specification
    that concern them.

    Conventions.  JavaScript values are a first-order tree type.  Numbers are
    integers or [NaN] (timestamps, lifetimes in seconds and HTTP statuses need
    no more), with exact arithmetic: a fraction, an infinity and the rounding
    of integers from 2^53 on are outside the model.  A string is the sequence
    of its UTF-16 code units, each below 256 (text of the Latin-1 range): the
    character of the model with code [n] is the code unit [n], so that the
    no-break space U+00A0 is the character 160; text with a code unit from 256
    on is outside the model.  An [async] function is modelled by its final
    result together with the store it leaves; every platform service (the
    browser, the Zoho SDK, the network) is an explicit argument. *)

From stdpp Require Import base option list gmap strings pretty.
From Stdlib Require Import ZArith Ascii String Lia.

Set Warnings "-register-all".
Open Scope string_scope.
Open Scope Z_scope.

(* ===================================================================== *)
(** * Part I.  Definitions                                                *)
(* ===================================================================== *)

(** ** JavaScript values and the built-ins the sources call *)
Module JS.

(** A JavaScript number, as far as the sources need one. *)
Inductive num := NaN | Fin (z : Z).

Inductive JValue :=
| JUndefined
| JNull
| JBool (b : bool)
| JNum (n : num)
| JStr (s : string)
| JArr (items : list JValue)
| JObj (fields : list (string * JValue)).

(** The outcome of evaluating code that may throw (or of awaiting a promise
    that may reject); an exception is kept as its message. *)
Inductive Completion (A : Type) :=
| Normal (a : A)
| Throw (message : string).
Arguments Normal {A} a.
Arguments Throw {A} message.

Definition bind {A B} (c : Completion A) (k : A -> Completion B) : Completion B :=
  match c with
  | Normal a => k a
  | Throw m => Throw m
  end.

Definition is_throw {A} (c : Completion A) : bool :=
  match c with Normal _ => false | Throw _ => true end.

(** ToBoolean *)
Definition truthy (v : JValue) : bool :=
  match v with
  | JUndefined | JNull => false
  | JBool b => b
  | JNum NaN => false
  | JNum (Fin z) => negb (z =? 0)
  | JStr s => negb (String.eqb s "")
  | JArr _ | JObj _ => true
  end.

(** [a || b] *)
Definition or_else (a b : JValue) : JValue := if truthy a then a else b.

Definition nullish (v : JValue) : bool :=
  match v with JUndefined | JNull => true | _ => false end.

Fixpoint assoc (k : string) (fs : list (string * JValue)) : option JValue :=
  match fs with
  | [] => None
  | (k', v) :: rest => if String.eqb k k' then Some v else assoc k rest
  end.

(** [v.k] for a [v] that is neither [null] nor [undefined]. *)
Definition prop (v : JValue) (k : string) : JValue :=
  match v with
  | JObj fs => default JUndefined (assoc k fs)
  | JArr l => if String.eqb k "length" then JNum (Fin (Z.of_nat (List.length l))) else JUndefined
  | JStr s => if String.eqb k "length" then JNum (Fin (Z.of_nat (String.length s))) else JUndefined
  | _ => JUndefined
  end.

(** [v.k]: a TypeError on [null] and [undefined]. *)
Definition get (v : JValue) (k : string) : Completion JValue :=
  if nullish v then Throw ("TypeError: cannot read properties of null or undefined, reading " +:+ k)
  else Normal (prop v k).

(** [v?.k] *)
Definition get_opt (v : JValue) (k : string) : JValue :=
  if nullish v then JUndefined else prop v k.

(** [v?.[i]] *)
Definition index_opt (v : JValue) (i : nat) : JValue :=
  match v with
  | JArr l => default JUndefined (l !! i)
  | JStr s => match String.get i s with Some c => JStr (String c "") | None => JUndefined end
  | JObj fs => default JUndefined (assoc (pretty i) fs)
  | _ => JUndefined
  end.

(** [a === b] against a string literal and against [true]/[false]. *)
Definition strict_eq_str (v : JValue) (s : string) : bool :=
  match v with JStr t => String.eqb t s | _ => false end.

Definition strict_eq_bool (v : JValue) (b : bool) : bool :=
  match v with JBool c => Bool.eqb c b | _ => false end.

Definition strict_eq_num (v : JValue) (n : Z) : bool :=
  match v with JNum (Fin m) => m =? n | _ => false end.

(** *** Strings *)

(** The capital letters below 256: A to Z, and U+00C0 to U+00DE without the
    multiplication sign U+00D7.  Each has its small letter 32 places on. *)
Definition is_upper (c : ascii) : bool :=
  let n := N_of_ascii c in
  ((65 <=? n)%N && (n <=? 90)%N)
  || ((192 <=? n)%N && (n <=? 222)%N && negb (n =? 215)%N).
(** The small letters below 256 whose capital is below 256 as well: a to z,
    and U+00E0 to U+00FE without the division sign U+00F7. *)
Definition is_lower (c : ascii) : bool :=
  let n := N_of_ascii c in
  ((97 <=? n)%N && (n <=? 122)%N)
  || ((224 <=? n)%N && (n <=? 254)%N && negb (n =? 247)%N).
Definition lower_ascii (c : ascii) : ascii :=
  if is_upper c then ascii_of_N (N_of_ascii c + 32) else c.
Definition upper_ascii (c : ascii) : ascii :=
  if is_lower c then ascii_of_N (N_of_ascii c - 32) else c.

Fixpoint map_string (f : ascii -> ascii) (s : string) : string :=
  match s with
  | EmptyString => EmptyString
  | String c r => String (f c) (map_string f r)
  end.

(** [s.toLowerCase()] *)
Definition toLowerCase : string -> string := map_string lower_ascii.

(** [s.toUpperCase()].  The sharp s U+00DF becomes SS.  The capitals of the
    micro sign U+00B5 and of U+00FF lie from 256 on and are not represented:
    the two characters are kept (the sources compare the result with ASCII
    text only, which contains neither them nor their capitals). *)
Fixpoint toUpperCase (s : string) : string :=
  match s with
  | EmptyString => EmptyString
  | String c r =>
      if (N_of_ascii c =? 223)%N then String "S" (String "S" (toUpperCase r))
      else String (upper_ascii c) (toUpperCase r)
  end.

(** White space and line terminators, as [trim] and the conversions to a
    number strip them: TAB, LF, VT, FF, CR, the space and the no-break space
    U+00A0 (the others, U+1680, U+2000 to U+200A, U+2028, U+2029, U+202F,
    U+205F, U+3000 and U+FEFF, lie from 256 on). *)
Definition is_space (c : ascii) : bool :=
  let n := N_of_ascii c in
  ((9 <=? n)%N && (n <=? 13)%N) || (n =? 32)%N || (n =? 160)%N.

Fixpoint trimStart (s : string) : string :=
  match s with
  | String c r => if is_space c then trimStart r else s
  | EmptyString => EmptyString
  end.

Definition trim (s : string) : string :=
  String.rev (trimStart (String.rev (trimStart s))).

(** [s.startsWith(p)] *)
Definition startsWith (s p : string) : bool := String.prefix p s.

(** [s.includes(sub)] *)
Fixpoint includes (s sub : string) : bool :=
  String.prefix sub s ||
  match s with
  | EmptyString => false
  | String _ r => includes r sub
  end.

(** *** Numbers *)

Definition num_add (a b : num) : num :=
  match a, b with Fin x, Fin y => Fin (x + y) | _, _ => NaN end.
Definition num_mul (a b : num) : num :=
  match a, b with Fin x, Fin y => Fin (x * y) | _, _ => NaN end.
Definition num_sub (a b : num) : num :=
  match a, b with Fin x, Fin y => Fin (x - y) | _, _ => NaN end.

(** [a >= b] and [a < b]: every comparison with [NaN] is false. *)
Definition num_ge (a b : num) : bool :=
  match a, b with Fin x, Fin y => y <=? x | _, _ => false end.
Definition num_lt (a b : num) : bool :=
  match a, b with Fin x, Fin y => x <? y | _, _ => false end.

Definition digit_val (c : ascii) : option Z :=
  let n := N_of_ascii c in
  if (48 <=? n)%N && (n <=? 57)%N then Some (Z.of_N n - 48) else None.

Definition hex_val (c : ascii) : option Z :=
  let n := N_of_ascii c in
  if (48 <=? n)%N && (n <=? 57)%N then Some (Z.of_N n - 48)
  else if (97 <=? n)%N && (n <=? 102)%N then Some (Z.of_N n - 87)
  else if (65 <=? n)%N && (n <=? 70)%N then Some (Z.of_N n - 55)
  else None.

(** Reads the longest prefix of digits in the given radix: the value read so
    far ([None] before the first digit) and the rest of the input. *)
Fixpoint read_digits (dv : ascii -> option Z) (radix : Z) (acc : option Z) (s : string)
  : option Z * string :=
  match s with
  | EmptyString => (acc, s)
  | String c r =>
      match dv c with
      | Some d => read_digits dv radix (Some (default 0 acc * radix + d)) r
      | None => (acc, s)
      end
  end.

Definition split_sign (s : string) : Z * string :=
  match s with
  | String "-" r => (-1, r)
  | String "+" r => (1, r)
  | _ => (1, s)
  end.

(** [parseInt(s)] with no radix argument: leading white space, a sign, an
    optional [0x] prefix, then as many digits as there are; [NaN] when there
    is none. *)
Definition parseInt (s : string) : num :=
  let '(sign, body) := split_sign (trimStart s) in
  let '(dv, radix, digits) :=
    match body with
    | String "0" (String "x" r) | String "0" (String "X" r) => (hex_val, 16, r)
    | _ => (digit_val, 10, body)
    end in
  match fst (read_digits dv radix None digits) with
  | Some n => Fin (sign * n)
  | None => NaN
  end.

Definition oct_val (c : ascii) : option Z :=
  let n := N_of_ascii c in
  if (48 <=? n)%N && (n <=? 55)%N then Some (Z.of_N n - 48) else None.

Definition bin_val (c : ascii) : option Z :=
  let n := N_of_ascii c in
  if (48 <=? n)%N && (n <=? 49)%N then Some (Z.of_N n - 48) else None.

(** A run of digits that makes up the whole text. *)
Definition all_digits (dv : ascii -> option Z) (radix : Z) (s : string) : num :=
  match read_digits dv radix None s with
  | (Some n, EmptyString) => Fin n
  | _ => NaN
  end.

(** A literal with a radix prefix ([0x], [0o], [0b], in either case): it takes
    no sign.  [None] when the text has no such prefix. *)
Definition radix_literal (t : string) : option num :=
  match t with
  | String "0" (String "x" r) | String "0" (String "X" r) => Some (all_digits hex_val 16 r)
  | String "0" (String "o" r) | String "0" (String "O" r) => Some (all_digits oct_val 8 r)
  | String "0" (String "b" r) | String "0" (String "B" r) => Some (all_digits bin_val 2 r)
  | _ => None
  end.

(** An exponent part, [e] or [E] with an optional sign and at least one
    digit: its value and what follows it.  Without an [e] the exponent is 0;
    [None] when an [e] is not followed by a digit. *)
Definition read_exponent (s : string) : option (Z * string) :=
  match s with
  | String "e" r | String "E" r =>
      let '(esign, digits) := split_sign r in
      match read_digits digit_val 10 None digits with
      | (Some x, r') => Some (esign * x, r')
      | (None, _) => None
      end
  | _ => Some (0, s)
  end.

(** The value [mantissa * 10 ^ scale] when it is an integer. *)
Definition integer_value (mantissa scale : Z) : option Z :=
  if 0 <=? scale then Some (mantissa * 10 ^ scale)
  else if mantissa mod 10 ^ (- scale) =? 0 then Some (mantissa / 10 ^ (- scale))
  else None.

(** The rest of a decimal literal after its integer digits [ip] ([None] when
    there is none): an optional fraction, an optional exponent, and nothing
    else; the mantissa needs a digit before or after the point.  The value is
    given when it is an integer. *)
Definition decimal_tail (sign : Z) (ip : option Z) (rest : string) : num :=
  let '(fp, nfrac, r2) :=
    match rest with
    | String "." r =>
        let '(f, r') := read_digits digit_val 10 None r in
        (f, Z.of_nat (String.length r - String.length r'), r')
    | _ => (None, 0, rest)
    end in
  match ip, fp with
  | None, None => NaN
  | _, _ =>
      match read_exponent r2 with
      | Some (x, EmptyString) =>
          match integer_value (default 0 ip * 10 ^ nfrac + default 0 fp) (x - nfrac) with
          | Some v => Fin (sign * v)
          | None => NaN
          end
      | _ => NaN
      end
  end.

(** ToNumber on a string.  White space is trimmed and the empty string is 0;
    then a signed decimal literal with an optional fraction and exponent, or
    an unsigned literal with a radix prefix; anything else is [NaN].  A
    literal whose value is not an integer (a fraction, [Infinity]) has no
    number in this model, and [NaN] stands for it. *)
Definition string_to_num (s : string) : num :=
  let t := trim s in
  if String.eqb t "" then Fin 0
  else
    let '(sign, body) := split_sign t in
    match read_digits digit_val 10 None body with
    | (Some n, EmptyString) => Fin (sign * n)
    | (ip, rest) =>
        match radix_literal t with
        | Some n => n
        | None => decimal_tail sign ip rest
        end
    end.

(** Number::toString on the numbers of the model: the decimal digits of the
    integer.  (JavaScript prints the exponent form from 10^21 on, where its
    numbers are no longer the exact integers of the model.) *)
Definition num_to_string (n : num) : string :=
  match n with NaN => "NaN" | Fin z => pretty z end.

Fixpoint join (sep : string) (l : list string) : string :=
  match l with
  | [] => ""
  | [x] => x
  | x :: rest => x +:+ sep +:+ join sep rest
  end.

(** ToString (what [String(v)], [v.toString()] on a primitive, and the
    storage setters apply to a value). *)
Fixpoint to_string (v : JValue) : string :=
  match v with
  | JUndefined => "undefined"
  | JNull => "null"
  | JBool b => if b then "true" else "false"
  | JNum n => num_to_string n
  | JStr s => s
  | JArr l => join "," (List.map (fun x => if nullish x then "" else to_string x) l)
  | JObj _ => "[object Object]"
  end.

(** ToNumber: an array or an object is converted through its string. *)
Definition to_num (v : JValue) : num :=
  match v with
  | JUndefined => NaN
  | JNull => Fin 0
  | JBool b => Fin (if b then 1 else 0)
  | JNum n => n
  | JStr s => string_to_num s
  | JArr _ | JObj _ => string_to_num (to_string v)
  end.

(** Method calls on a value that the source expects to be a string: calling a
    string method on anything else is a TypeError. *)
Definition call_string_method (name : string) (f : string -> string) (v : JValue)
  : Completion string :=
  match v with
  | JStr s => Normal (f s)
  | _ => Throw ("TypeError: " +:+ name +:+ " is not a function")
  end.

(** *** JSON *)

(** The double-quote character, and the backslash. *)
Definition dq : string := String "034"%char "".
Definition bs : string := String "092"%char "".

Definition hex_digit (n : N) : ascii :=
  if (n <? 10)%N then ascii_of_N (48 + n) else ascii_of_N (87 + n).

Definition escape_char (c : ascii) : string :=
  let n := N_of_ascii c in
  if (n =? 34)%N then bs +:+ dq
  else if (n =? 92)%N then bs +:+ bs
  else if (n =? 8)%N then bs +:+ "b"
  else if (n =? 9)%N then bs +:+ "t"
  else if (n =? 10)%N then bs +:+ "n"
  else if (n =? 12)%N then bs +:+ "f"
  else if (n =? 13)%N then bs +:+ "r"
  else if (n <? 32)%N then
    bs +:+ "u00" +:+ String (hex_digit (n / 16)) (String (hex_digit (n mod 16)) "")
  else String c "".

Fixpoint escape (s : string) : string :=
  match s with
  | EmptyString => EmptyString
  | String c r => escape_char c +:+ escape r
  end.

Definition quote (s : string) : string := dq +:+ escape s +:+ dq.

(** [JSON.stringify(v)]; [None] stands for the result [undefined].  A member
    whose value is [undefined] is left out of an object and printed as [null]
    in an array; [NaN] prints as [null]. *)
Fixpoint stringify (v : JValue) : option string :=
  match v with
  | JUndefined => None
  | JNull => Some "null"
  | JBool b => Some (if b then "true" else "false")
  | JNum NaN => Some "null"
  | JNum (Fin z) => Some (pretty z)
  | JStr s => Some (quote s)
  | JArr l =>
      Some ("[" +:+ join "," (List.map (fun x => default "null" (stringify x)) l) +:+ "]")
  | JObj fs =>
      let members :=
        (fix go (fs : list (string * JValue)) : list string :=
           match fs with
           | [] => []
           | (k, x) :: rest =>
               match stringify x with
               | Some t => (quote k +:+ ":" +:+ t) :: go rest
               | None => go rest
               end
           end) fs in
      Some ("{" +:+ join "," members +:+ "}")
  end.

(** What [localStorage.setItem(key, JSON.stringify(v))] stores: the argument
    converted to a string. *)
Definition stringify_arg (v : JValue) : string := default "undefined" (stringify v).

Definition is_json_ws (c : ascii) : bool :=
  let n := N_of_ascii c in (n =? 32)%N || (n =? 9)%N || (n =? 10)%N || (n =? 13)%N.

Fixpoint skip_ws (s : string) : string :=
  match s with
  | String c r => if is_json_ws c then skip_ws r else s
  | EmptyString => EmptyString
  end.

Definition unescape (c : ascii) : option ascii :=
  let n := N_of_ascii c in
  if (n =? 34)%N || (n =? 92)%N || (n =? 47)%N then Some c
  else if (n =? 98)%N then Some "008"%char
  else if (n =? 116)%N then Some "009"%char
  else if (n =? 110)%N then Some "010"%char
  else if (n =? 102)%N then Some "012"%char
  else if (n =? 114)%N then Some "013"%char
  else None.

(** The characters of a string literal after its opening quote, up to the
    closing one, and what follows.  A [\u] escape is read for the code units
    below 256. *)
Fixpoint parse_string_body (s : string) : option (string * string) :=
  match s with
  | EmptyString => None
  | String c r =>
      if (N_of_ascii c =? 34)%N then Some ("", r)
      else if (N_of_ascii c <? 32)%N then None
      else if (N_of_ascii c =? 92)%N then
        match r with
        | String "u" (String "0" (String "0" (String h (String l r')))) =>
            match hex_val h, hex_val l, parse_string_body r' with
            | Some a, Some b, Some (t, rest) =>
                Some (String (ascii_of_N (Z.to_N (a * 16 + b))) t, rest)
            | _, _, _ => None
            end
        | String e r' =>
            match unescape e, parse_string_body r' with
            | Some x, Some (t, rest) => Some (String x t, rest)
            | _, _ => None
            end
        | EmptyString => None
        end
      else
        match parse_string_body r with
        | Some (t, rest) => Some (String c t, rest)
        | None => None
        end
  end.

(** A JSON number: an optional minus sign, integer digits without a leading
    zero, an optional fraction with at least one digit, an optional exponent.
    A number whose value is not an integer is outside the model and is not
    read. *)
Definition parse_number (s : string) : option (JValue * string) :=
  let '(sign, body) := match s with String "-" r => (-1, r) | _ => (1, s) end in
  let leading_zero :=
    match body with
    | String "0" (String d _) => match digit_val d with Some _ => true | None => false end
    | _ => false
    end in
  if leading_zero then None
  else
    match read_digits digit_val 10 None body with
    | (Some n, r1) =>
        let fraction :=
          match r1 with
          | String "." r =>
              match read_digits digit_val 10 None r with
              | (Some f, r') => Some (f, Z.of_nat (String.length r - String.length r'), r')
              | (None, _) => None
              end
          | _ => Some (0, 0, r1)
          end in
        match fraction with
        | Some (f, nfrac, r2) =>
            match read_exponent r2 with
            | Some (x, r3) =>
                match integer_value (n * 10 ^ nfrac + f) (x - nfrac) with
                | Some v => Some (JNum (Fin (sign * v)), r3)
                | None => None
                end
            | None => None
            end
        | None => None
        end
    | (None, _) => None
    end.

(** [o[k] = v] on the members read so far: a repeated key keeps its place and
    takes the later value. *)
Fixpoint set_member (k : string) (v : JValue) (fs : list (string * JValue))
  : list (string * JValue) :=
  match fs with
  | [] => [(k, v)]
  | (k', v') :: rest =>
      if String.eqb k k' then (k', v) :: rest else (k', v') :: set_member k v rest
  end.

(** A JSON value at the head of the input (after white space) and the rest of
    the input.  Every call consumes a character, so the length of the text is
    fuel enough. *)
Fixpoint parse_value (fuel : nat) (s : string) : option (JValue * string) :=
  match fuel with
  | O => None
  | S fuel' =>
      match skip_ws s with
      | String "n" (String "u" (String "l" (String "l" r))) => Some (JNull, r)
      | String "t" (String "r" (String "u" (String "e" r))) => Some (JBool true, r)
      | String "f" (String "a" (String "l" (String "s" (String "e" r)))) =>
          Some (JBool false, r)
      | String "[" r =>
          match skip_ws r with
          | String "]" r' => Some (JArr [], r')
          | _ =>
              match parse_elements fuel' r with
              | Some (l, r') => Some (JArr l, r')
              | None => None
              end
          end
      | String "{" r =>
          match skip_ws r with
          | String "}" r' => Some (JObj [], r')
          | _ =>
              match parse_members fuel' [] r with
              | Some (fs, r') => Some (JObj fs, r')
              | None => None
              end
          end
      | String c r as t =>
          if (N_of_ascii c =? 34)%N then
            match parse_string_body r with
            | Some (str, r') => Some (JStr str, r')
            | None => None
            end
          else parse_number t
      | EmptyString => None
      end
  end
with parse_elements (fuel : nat) (s : string) : option (list JValue * string) :=
  match fuel with
  | O => None
  | S fuel' =>
      match parse_value fuel' s with
      | Some (v, r) =>
          match skip_ws r with
          | String "]" r' => Some ([v], r')
          | String "," r' =>
              match parse_elements fuel' r' with
              | Some (l, r'') => Some (v :: l, r'')
              | None => None
              end
          | _ => None
          end
      | None => None
      end
  end
with parse_members (fuel : nat) (acc : list (string * JValue)) (s : string)
  : option (list (string * JValue) * string) :=
  match fuel with
  | O => None
  | S fuel' =>
      match skip_ws s with
      | String q r =>
          if (N_of_ascii q =? 34)%N then
            match parse_string_body r with
            | Some (k, r1) =>
                match skip_ws r1 with
                | String ":" r2 =>
                    match parse_value fuel' r2 with
                    | Some (v, r3) =>
                        let acc' := set_member k v acc in
                        match skip_ws r3 with
                        | String "}" r4 => Some (acc', r4)
                        | String "," r4 => parse_members fuel' acc' r4
                        | _ => None
                        end
                    | None => None
                    end
                | _ => None
                end
            | None => None
            end
          else None
      | EmptyString => None
      end
  end.

(** [JSON.parse(text)]: a SyntaxError unless the text is one JSON value. *)
Definition parse (text : string) : Completion JValue :=
  match parse_value (S (String.length text)) text with
  | Some (v, rest) =>
      match skip_ws rest with
      | EmptyString => Normal v
      | _ => Throw "SyntaxError: unexpected token in JSON"
      end
  | None => Throw "SyntaxError: unexpected token in JSON"
  end.

(** [localStorage.getItem(key)] on the content of a storage area. *)
Definition getItem (ls : gmap string string) (key : string) : JValue :=
  match ls !! key with
  | Some v => JStr v
  | None => JNull
  end.

(** [{...a, ...b}] on the members of two objects: the members of [a] in their
    order, overwritten by those of [b], then the new members of [b]. *)
Definition spread (a b : list (string * JValue)) : list (string * JValue) :=
  fold_left (fun acc kv => set_member (fst kv) (snd kv) acc) b a.

(** The members an object spread [...v] contributes: the own members of an
    object, the indexed elements of an array or a string, nothing otherwise. *)
Definition members (v : JValue) : list (string * JValue) :=
  match v with
  | JObj fs => fs
  | JArr l => imap (fun i x => (pretty i, x)) l
  | JStr s => imap (fun i c => (pretty i, JStr (String c ""))) (list_ascii_of_string s)
  | _ => []
  end.

End JS.

(** ** [app/setup-api.js]: the credentials kept in the SD_Widget_Setup module *)
Module SetupAPI.
Import JS.

Definition SETUP_MODULE_NAME : string := "SD_Widget_Setup".

(** What the functions read of the browser. *)
Record Browser := {
  (** [window.self !== window.top] *)
  inIframe : bool;
  (** [new URLSearchParams(window.location.search)], as its name/value pairs *)
  urlParams : list (string * string);
  (** whether [localStorage.setItem(key, value)] completes; it throws otherwise
      (quota exceeded, storage disabled) *)
  storageAccepts : string -> string -> bool
}.

(** The Zoho embedded-app SDK, over the state [S] of the CRM.  A call
    completes with a value or throws (a rejected promise, or a ReferenceError
    when the SDK is not loaded). *)
Record ZohoSDK (S : Type) := {
  (** [typeof ZOHO !== 'undefined'] after the given number of 100 ms waits *)
  zohoDefined : nat -> bool;
  (** [ZOHO?.CRM?.CONFIG?.getCurrentUser] is there after that many waits *)
  hasGetCurrentUser : nat -> bool;
  (** [typeof ZOHO !== 'undefined' && ZOHO.CRM && ZOHO.CRM.CONFIG] *)
  hasConfig : bool;
  (** [await ZOHO.CRM.CONFIG.getCurrentUser()] *)
  getCurrentUser : Completion JValue;
  (** [await ZOHO.CRM.CONFIG.getVariables()] *)
  getVariables : Completion JValue;
  (** [await ZOHO.CRM.API.getRecords({Entity, page: 1, perPage})] *)
  getRecords : Z -> S -> Completion JValue;
  (** [await ZOHO.CRM.API.updateRecord({Entity, RecordID, APIData})] *)
  updateRecord : JValue -> JValue -> S -> Completion JValue * S;
  (** [await ZOHO.CRM.API.insertRecord({Entity, APIData})] *)
  insertRecord : JValue -> S -> Completion JValue * S
}.
Arguments zohoDefined {S} _ _.
Arguments hasGetCurrentUser {S} _ _.
Arguments hasConfig {S} _.
Arguments getCurrentUser {S} _.
Arguments getVariables {S} _.
Arguments getRecords {S} _ _ _.
Arguments updateRecord {S} _ _ _ _.
Arguments insertRecord {S} _ _ _.

(** What the functions may change: the browser's local storage and the CRM. *)
Record Store (S : Type) := {
  localStorage : gmap string string;
  crm : S
}.
Arguments localStorage {S} _.
Arguments crm {S} _.
Arguments Build_Store {S} _ _.

(** [urlParams.get(name)]: the first value under the name, or [null]. *)
Fixpoint searchGet (params : list (string * string)) (name : string) : JValue :=
  match params with
  | [] => JNull
  | (k, v) :: rest => if String.eqb k name then JStr v else searchGet rest name
  end.

Definition isStandaloneMode (b : Browser) : bool :=
  let isInIframe := inIframe b in
  let isStandalone := negb isInIframe in
  isStandalone.

Definition maxAttempts : nat := 50.

(** [while (absent && attempts < maxAttempts) { await wait(100); attempts++ }],
    started after [t] waits: the number of waits when the loop ends. *)
Fixpoint poll (absent : nat -> bool) (attemptsLeft : nat) (t : nat) : nat :=
  match attemptsLeft with
  | O => t
  | S n => if absent t then poll absent n (S t) else t
  end.

(** The override the permission check reads from the URL and from local
    storage (marked as being for testing in the source). *)
Definition manualAdmin (b : Browser) (ls : gmap string string) : bool :=
  strict_eq_str (searchGet (urlParams b) "admin") "true"
  || strict_eq_str (getItem ls "sd_force_admin") "true".

(** The administrator criteria of [checkUserHasManageOrgPermission]: the part
    of its body that decides from the user data alone (role, profile, admin
    flag), including the second look at the profile id. *)
Definition adminByRoleOrProfile (userData : JValue) : Completion bool :=
  let role := or_else (get_opt (prop userData "role") "name") (JStr "") in
  let roleId := or_else (get_opt (prop userData "role") "id") (JStr "") in
  let isAdminFlag := strict_eq_bool (prop userData "admin") true in
  let profile := or_else (get_opt (prop userData "profile") "name") (JStr "") in
  let profileId := or_else (get_opt (prop userData "profile") "id") (JStr "") in
  bind (call_string_method "role.toLowerCase" toLowerCase role) (fun roleLower =>
  bind (call_string_method "profile.toLowerCase" toLowerCase profile) (fun profileLower =>
  let roleIdUpper := toUpperCase (to_string roleId) in
  let profileIdUpper := toUpperCase (to_string profileId) in
  let isAdmin :=
    String.eqb roleLower "administrator"
    || String.eqb roleLower "admin"
    || String.eqb roleIdUpper "ADMIN"
    || includes roleIdUpper "ADMIN"
    || isAdminFlag
    || includes profileLower "admin"
    || includes profileLower "administrator"
    || includes profileLower "manager"
    || includes profileLower "management"
    || includes profileIdUpper "ADMIN"
    || String.eqb profileIdUpper "1100000000001" in
  if negb isAdmin && truthy profileId
     && (includes profileIdUpper "ADMIN" || strict_eq_str profileId "1100000000001")
  then Normal true
  else Normal isAdmin)).

(** The body of [checkUserHasManageOrgPermission] from the point where the
    user data is at hand: the override is looked at before the criteria. *)
Definition checkUserData (b : Browser) (ls : gmap string string) (userData : JValue)
  : Completion bool :=
  if manualAdmin b ls then Normal true
  else adminByRoleOrProfile userData.

(** Whether the user the SDK reports meets the administrator criteria of the
    source (no user data, a rejected call and a criterion that throws count
    as not meeting them). *)
Definition userIsAdministrator (user : Completion JValue) : bool :=
  match user with
  | Normal u =>
      let userData := index_opt (get_opt u "users") 0 in
      truthy userData
      && match adminByRoleOrProfile userData with Normal r => r | Throw _ => false end
  | Throw _ => false
  end.

Section Host.
Context {S : Type}.
Variable b : Browser.
Variable zoho : ZohoSDK S.

Definition checkUserHasManageOrgPermission (ls : gmap string string) : bool :=
  if isStandaloneMode b then true
  else
    let t1 := poll (fun t => negb (zohoDefined zoho t)) maxAttempts 0 in
    if negb (zohoDefined zoho t1) then false
    else
      let t2 := poll (fun t => negb (hasGetCurrentUser zoho t)) maxAttempts t1 in
      if negb (hasGetCurrentUser zoho t2) then false
      else
        match
          bind (getCurrentUser zoho) (fun user =>
            let userData := index_opt (get_opt user "users") 0 in
            if negb (truthy userData) then Normal false
            else checkUserData b ls userData)
        with
        | Normal r => r
        | Throw _ => false
        end.

Definition checkSetupModuleExists (c : S) : bool :=
  let isStandalone := isStandaloneMode b in
  if isStandalone then false
  else
    match getRecords zoho 1 c with
    | Normal _ => true
    | Throw _ => false
    end.

(** [a !== false] *)
Definition not_false (v : JValue) : bool := negb (strict_eq_bool v false).

Definition getSetupConfig (c : S) : JValue :=
  let isStandalone := isStandaloneMode b in
  if isStandalone then JNull
  else
    match
      (let moduleExists := checkSetupModuleExists c in
       if negb moduleExists then Normal JNull
       else
         bind (getRecords zoho 10 c) (fun response =>
         let data := get_opt response "data" in
         if negb (truthy data) || strict_eq_num (prop data "length") 0 then Normal JNull
         else
           let record := index_opt data 0 in
           bind (get record "id") (fun id =>
           Normal (JObj [
             ("id", id);
             ("clientId", or_else (prop record "Client_Id__c") JNull);
             ("environment", or_else (prop record "Environment__c") JNull);
             ("redirectUri", or_else (prop record "Redirect_Uri__c") JNull);
             ("tenantId", or_else (prop record "Tenant_Id__c") JNull);
             ("brandCode", or_else (prop record "Brand_Code__c") JNull);
             ("isActive", JBool (not_false (prop record "Is_Active__c")))
           ]))))
    with
    | Normal config => config
    | Throw _ => JNull
    end.

Definition permissionDenied : string :=
  "Permission denied: Only users with " +:+ dq +:+ "Manage Organization" +:+ dq
  +:+ " rights can configure credentials.".

Definition environmentInvalid : string :=
  "Environment must be " +:+ dq +:+ "sandbox" +:+ dq +:+ " or " +:+ dq +:+ "production" +:+ dq.

Definition moduleMissing : string :=
  "Custom module " +:+ SETUP_MODULE_NAME
  +:+ " does not exist. Please create it first using the setup guide.".

(** [v?.trim() || null] *)
Definition trimmed_or_null (name : string) (v : JValue) : Completion JValue :=
  if nullish v then Normal JNull
  else bind (call_string_method name trim v) (fun t => Normal (or_else (JStr t) JNull)).

(** The three checks on the required fields; each yields the trimmed or
    lower-cased text the record is built from. *)
Definition validateRequired (config : JValue) : Completion (string * string * string) :=
  bind (get config "clientId") (fun clientId =>
  bind (if negb (truthy clientId) then Normal ""
        else call_string_method "config.clientId.trim" trim clientId) (fun clientIdT =>
  if String.eqb clientIdT "" then Throw "Client ID is required"
  else
  let environment := prop config "environment" in
  bind (if negb (truthy environment) then Normal ""
        else call_string_method "config.environment.toLowerCase" toLowerCase environment)
       (fun environmentL =>
  if negb (truthy environment)
     || negb (String.eqb environmentL "sandbox" || String.eqb environmentL "production")
  then Throw environmentInvalid
  else
  let redirectUri := prop config "redirectUri" in
  bind (if negb (truthy redirectUri) then Normal ""
        else call_string_method "config.redirectUri.trim" trim redirectUri) (fun redirectUriT =>
  if String.eqb redirectUriT "" then Throw "Redirect URI is required"
  else Normal (clientIdT, environmentL, redirectUriT))))).

(** The part of [saveSetupConfig] inside its [try] block (the [catch] only
    logs and rethrows). *)
Definition writeSetupRecord (config : JValue) (fields : string * string * string) (c : S)
  : Completion JValue * S :=
  let '(clientIdT, environmentL, redirectUriT) := fields in
  let moduleExists := checkSetupModuleExists c in
  if negb moduleExists then (Throw moduleMissing, c)
  else
    match
      bind (trimmed_or_null "config.tenantId.trim" (prop config "tenantId")) (fun tenantId =>
      bind (trimmed_or_null "config.brandCode.trim" (prop config "brandCode")) (fun brandCode =>
      Normal (JObj [
        ("Client_Id__c", JStr clientIdT);
        ("Environment__c", JStr environmentL);
        ("Redirect_Uri__c", JStr redirectUriT);
        ("Tenant_Id__c", tenantId);
        ("Brand_Code__c", brandCode);
        ("Is_Active__c", JBool (not_false (prop config "isActive")))
      ])))
    with
    | Throw m => (Throw m, c)
    | Normal setupData =>
        let existingConfig := getSetupConfig c in
        let '(response, c') :=
          if truthy existingConfig && truthy (prop existingConfig "id")
          then updateRecord zoho (prop existingConfig "id") setupData c
          else insertRecord zoho setupData c in
        match response with
        | Throw m => (Throw m, c')
        | Normal response =>
            let savedRecord := index_opt (get_opt response "data") 0 in
            if negb (truthy savedRecord) then (Throw "Failed to save setup configuration", c')
            else
              (Normal (JObj [
                 ("id", prop savedRecord "id");
                 ("clientId", or_else (prop savedRecord "Client_Id__c") (prop setupData "Client_Id__c"));
                 ("environment", or_else (prop savedRecord "Environment__c") (prop setupData "Environment__c"));
                 ("redirectUri", or_else (prop savedRecord "Redirect_Uri__c") (prop setupData "Redirect_Uri__c"));
                 ("tenantId", or_else (prop savedRecord "Tenant_Id__c") (prop setupData "Tenant_Id__c"));
                 ("brandCode", or_else (prop savedRecord "Brand_Code__c") (prop setupData "Brand_Code__c"));
                 ("isActive", JBool (not_false (prop savedRecord "Is_Active__c")))
               ]), c')
        end
    end.

Definition saveSetupConfig (config : JValue) (st : Store S) : Completion JValue * Store S :=
  let isStandalone := isStandaloneMode b in
  if isStandalone then
    let text := stringify_arg config in
    if storageAccepts b "sd_widget_setup_config" text
    then (Normal config,
          Build_Store (<["sd_widget_setup_config" := text]> (localStorage st)) (crm st))
    else (Throw "Failed to save configuration in standalone mode", st)
  else
    let hasPermission := checkUserHasManageOrgPermission (localStorage st) in
    if negb hasPermission then (Throw permissionDenied, st)
    else
      match validateRequired config with
      | Throw m => (Throw m, st)
      | Normal fields =>
          let '(r, c') := writeSetupRecord config fields (crm st) in
          (r, Build_Store (localStorage st) c')
      end.

(** The three [return {...}] statements of [getCredentials]. *)
Definition fromCustomModule (customModuleConfig : JValue) : JValue :=
  JObj [
    ("clientId", prop customModuleConfig "clientId");
    ("environment", prop customModuleConfig "environment");
    ("redirectUri", prop customModuleConfig "redirectUri");
    ("tenantId", prop customModuleConfig "tenantId");
    ("brandCode", prop customModuleConfig "brandCode");
    ("source", JStr "custom_module")
  ].

Definition fromWidgetVariables (widgetConfig : JValue) : JValue :=
  JObj [
    ("clientId", prop widgetConfig "client_id");
    ("environment", or_else (prop widgetConfig "environment") (JStr "sandbox"));
    ("redirectUri", prop widgetConfig "redirect_uri");
    ("tenantId", JNull);
    ("brandCode", JNull);
    ("source", JStr "widget_variables")
  ].

Definition fromLocalStorage (config : JValue) : JValue :=
  JObj [
    ("clientId", prop config "clientId");
    ("environment", or_else (prop config "environment") (JStr "sandbox"));
    ("redirectUri", prop config "redirectUri");
    ("tenantId", or_else (prop config "tenantId") JNull);
    ("brandCode", or_else (prop config "brandCode") JNull);
    ("source", JStr "localStorage")
  ].

(** The usable configuration of a source, if it has one: the value is there
    and its client id is truthy. *)
Definition usable (config : JValue) (idField : string) : bool :=
  truthy config && truthy (get_opt config idField).

(** Second step of [getCredentials]: the widget variables. *)
Definition widgetVariablesStep : option JValue :=
  if hasConfig zoho then
    match getVariables zoho with
    | Normal widgetConfig =>
        if usable widgetConfig "client_id" then Some (fromWidgetVariables widgetConfig)
        else None
    | Throw _ => None
    end
  else None.

(** Third step of [getCredentials]: the configuration saved in local storage. *)
Definition localStorageStep (ls : gmap string string) : option JValue :=
  let storedConfig := getItem ls "sd_widget_setup_config" in
  if truthy storedConfig then
    match parse (to_string storedConfig) with
    | Normal config =>
        if usable config "clientId" then Some (fromLocalStorage config) else None
    | Throw _ => None
    end
  else None.

(** [getCredentials()]: the credentials object, or [null]. *)
Definition getCredentials (st : Store S) : JValue :=
  let isStandalone := isStandaloneMode b in
  if isStandalone then JNull
  else
    let customModuleConfig := getSetupConfig (crm st) in
    if usable customModuleConfig "clientId" then fromCustomModule customModuleConfig
    else
      match (if negb isStandalone then widgetVariablesStep else None) with
      | Some credentials => credentials
      | None =>
          match (if isStandalone then localStorageStep (localStorage st) else None) with
          | Some credentials => credentials
          | None => JNull
          end
      end.

End Host.

End SetupAPI.

(** ** The network, as the sources use it through [fetch] *)
Module Fetch.
Import JS.

(** [fetch(url, init)] *)
Record Request := {
  url : string;
  init : JValue
}.

(** The response of the server: its status and what [response.json()]
    completes with (it throws on a body that is not JSON). *)
Record Response := {
  status : Z;
  json : Completion JValue
}.

(** [await fetch(...)]: a response, whatever its status, or a rejection when
    the request could not be carried out. *)
Inductive FetchResult :=
| Responded (r : Response)
| Failed (message : string).

(** [response.ok] *)
Definition ok (r : Response) : bool := (200 <=? status r) && (status r <=? 299).

(** The server and the transport, as a function of the request. *)
Definition Network : Type := Request -> FetchResult.

End Fetch.

(** ** The session controller of [SESSION-MANAGEMENT.md] ([SideDrawerAuth]) *)
Module SideDrawerAuth.
Import JS Fetch.

(** The states a connection goes through (specification, section 3). *)
Inductive ConnectionStatus := Disconnected | Connecting | Connected | Refreshing | Error.

Record OAuthConfig := {
  tokenEndpoint : string;
  clientId : JValue;
  clientSecret : JValue;
  audience : JValue
}.

Record Env := {
  OAUTH_CONFIG : OAuthConfig;
  (** [Date.now()], in milliseconds *)
  now : Z;
  network : Network;
  (** whether [localStorage.setItem(key, value)] completes *)
  storageAccepts : string -> string -> bool
}.

Record State := {
  (** the session object kept in the host session ([sdSession]), or [null] *)
  sdSession : JValue;
  localStorage : gmap string string;
  (** the status the widget shows *)
  shown : ConnectionStatus;
  (** the requests sent so far, latest first *)
  sent : list Request
}.

Definition refreshTokenKey : string := "sidedrawer_refresh_token".

(** Modelled from the spec: [getZohoSession] is not among the sources; the
    token store reads the access token and its expiry from host-session
    storage. *)
Definition getZohoSession (st : State) : JValue := sdSession st.

(** Modelled from the spec: [setZohoSession] is not among the sources; the
    token store writes the access token and its expiry to host-session
    storage. *)
Definition setZohoSession (sessionData : JValue) (st : State) : State :=
  {| sdSession := sessionData; localStorage := localStorage st;
     shown := shown st; sent := sent st |}.

(** Modelled from the spec: [showConnectedStatus] and [showDisconnectedStatus]
    are not among the sources; they set the connection status. *)
Definition showConnectedStatus (st : State) : State :=
  {| sdSession := sdSession st; localStorage := localStorage st;
     shown := Connected; sent := sent st |}.

Definition showDisconnectedStatus (st : State) : State :=
  {| sdSession := sdSession st; localStorage := localStorage st;
     shown := Disconnected; sent := sent st |}.

(** Modelled from the spec: [disconnect] is not among the sources; it clears
    both halves of the token store and sets the status to Disconnected,
    without a network call. *)
Definition disconnect (st : State) : State :=
  {| sdSession := JNull; localStorage := delete refreshTokenKey (localStorage st);
     shown := Disconnected; sent := sent st |}.

Definition getRefreshToken (st : State) : JValue :=
  getItem (localStorage st) refreshTokenKey.

Definition getAccessToken (st : State) : JValue :=
  let session := getZohoSession st in
  if truthy session then prop session "accessToken" else JNull.

Definition bufferTime : Z := 5 * 60 * 1000.

Definition isTokenExpired (now : Z) (expiresAt : JValue) : bool :=
  num_ge (Fin now) (num_sub (to_num expiresAt) (Fin bufferTime)).

Definition saveTokens (e : Env) (tokenData : JValue) (st : State) : Completion State :=
  bind (get tokenData "access_token") (fun access_token =>
  let sessionData := JObj [
    ("accessToken", access_token);
    ("expiresAt",
     JNum (num_add (Fin (now e)) (num_mul (to_num (prop tokenData "expires_in")) (Fin 1000))));
    ("tokenType", JStr "Bearer")
  ] in
  let st1 := setZohoSession sessionData st in
  let refresh_token := prop tokenData "refresh_token" in
  if truthy refresh_token then
    if storageAccepts e refreshTokenKey (to_string refresh_token) then
      Normal {| sdSession := sdSession st1;
                localStorage := <[refreshTokenKey := to_string refresh_token]> (localStorage st1);
                shown := shown st1; sent := sent st1 |}
    else Throw "QuotaExceededError"
  else Normal st1).

(** The request [refreshAccessToken] sends. *)
Definition refreshRequest (e : Env) (refreshToken : JValue) : Request :=
  {| url := tokenEndpoint (OAUTH_CONFIG e);
     init := JObj [
       ("method", JStr "POST");
       ("headers", JObj [("Content-Type", JStr "application/json")]);
       ("body", JStr (stringify_arg (JObj [
          ("grant_type", JStr "refresh_token");
          ("client_id", clientId (OAUTH_CONFIG e));
          ("client_secret", clientSecret (OAUTH_CONFIG e));
          ("refresh_token", refreshToken);
          ("audience", audience (OAUTH_CONFIG e))
        ])))
     ] |}.

Definition record_request (r : Request) (st : State) : State :=
  {| sdSession := sdSession st; localStorage := localStorage st;
     shown := shown st; sent := r :: sent st |}.

Definition refreshAccessToken (e : Env) (st : State) : State :=
  let refreshToken := getRefreshToken st in
  if negb (truthy refreshToken) then showDisconnectedStatus st
  else
    let request := refreshRequest e refreshToken in
    let st1 := record_request request st in
    match network e request with
    | Failed _ => disconnect st1
    | Responded response =>
        match json response with
        | Throw _ => disconnect st1
        | Normal tokenData =>
            match saveTokens e tokenData st1 with
            | Normal st2 => showConnectedStatus st2
            | Throw _ => disconnect st1
            end
        end
    end.

Definition checkConnection (e : Env) (st : State) : State :=
  let session := getZohoSession st in
  if truthy session && negb (isTokenExpired (now e) (prop session "expiresAt"))
  then showConnectedStatus st
  else if truthy (getRefreshToken st) then refreshAccessToken e st
  else showDisconnectedStatus st.

End SideDrawerAuth.

(** ** The REST helper class [SideDrawerAPI] *)
Module SideDrawerAPI.
Import JS Fetch.

Definition baseURL : string := "https://user-api-sbx.sidedrawersbx.com".

Definition accessTokenKey : string := "sidedrawer_access_token".
Definition refreshTokenKey : string := "sidedrawer_refresh_token".
Definition tokenExpiryKey : string := "sidedrawer_token_expiry".

Definition getAccessToken (ls : gmap string string) : JValue :=
  getItem ls accessTokenKey.

(** [isAuthenticated()], at the time [now] (milliseconds). *)
Definition isAuthenticated (now : Z) (ls : gmap string string) : bool :=
  let token := getAccessToken ls in
  let expiry := getItem ls tokenExpiryKey in
  if negb (truthy token) || negb (truthy expiry) then false
  else num_lt (Fin now) (parseInt (to_string expiry)).

Definition notAuthenticated : string :=
  "Not authenticated. Please connect to SideDrawer first.".

Definition authenticationExpired : string :=
  "Authentication expired. Please reconnect.".

Definition defaultHeaders (token : JValue) : list (string * JValue) :=
  [("Authorization", JStr ("Bearer " +:+ to_string token));
   ("Content-Type", JStr "application/json")].

(** The request that [request(endpoint, options)] builds for a token. *)
Definition buildRequest (token : JValue) (endpoint : string) (options headers : JValue)
  : Request :=
  {| url := if startsWith endpoint "http" then endpoint else baseURL +:+ endpoint;
     init := JObj (spread (members options)
                     [("headers", JObj (spread (defaultHeaders token) (members headers)))]) |}.

(** What the code does with the result of [fetch]. *)
Definition handleResponse (result : FetchResult) : Completion JValue :=
  match result with
  | Failed m => Throw m
  | Responded response =>
      if status response =? 401 then Throw authenticationExpired
      else if negb (ok response) then
        let errorData := match json response with Normal d => d | Throw _ => JObj [] end in
        bind (get errorData "message") (fun message =>
        Throw (to_string (or_else message
                 (JStr ("API error: " +:+ pretty (status response))))))
      else json response
  end.

(** [request(endpoint, options = {})]: what the call completes with, and the
    requests it sent. *)
Definition request (net : Network) (ls : gmap string string)
    (endpoint : string) (options : JValue) : Completion JValue * list Request :=
  let options := match options with JUndefined => JObj [] | _ => options end in
  let token := getAccessToken ls in
  if negb (truthy token) then (Throw notAuthenticated, [])
  else
    match get options "headers" with
    | Throw m => (Throw m, [])
    | Normal headers =>
        let r := buildRequest token endpoint options headers in
        (handleResponse (net r), [r])
    end.

(** [getCurrentUser()] and the other wrappers pass their endpoint to
    [request]. *)
Definition getCurrentUser (net : Network) (ls : gmap string string) :=
  request net ls "/me" JUndefined.

End SideDrawerAPI.

(** ** Concrete hosts and inputs for the examples below *)
Module Scenario.
Import JS Fetch.

(** A CRM that keeps the records of the SD_Widget_Setup module in a list;
    [None] when the module does not exist. *)
Definition Crm : Type := option (list JValue).

Definition crmGetRecords (perPage : Z) (c : Crm) : Completion JValue :=
  match c with
  | None => Throw "INVALID_MODULE: the module name given seems to be invalid"
  | Some records => Normal (JObj [("data", JArr (take (Z.to_nat perPage) records))])
  end.

Definition writeResponse (id : JValue) (message : string) : JValue :=
  JObj [("data", JArr [JObj [
    ("code", JStr "SUCCESS");
    ("details", JObj [("id", id)]);
    ("message", JStr message);
    ("status", JStr "success")]])].

Definition crmInsertRecord (data : JValue) (c : Crm) : Completion JValue * Crm :=
  match c with
  | None => (Throw "INVALID_MODULE: the module name given seems to be invalid", c)
  | Some records =>
      let id := JStr ("500000000" +:+ pretty (List.length records)) in
      (Normal (writeResponse id "record added"),
       Some (List.app records [JObj (("id", id) :: members data)]))
  end.

Definition crmUpdateRecord (id data : JValue) (c : Crm) : Completion JValue * Crm :=
  match c with
  | None => (Throw "INVALID_MODULE: the module name given seems to be invalid", c)
  | Some records =>
      (Normal (writeResponse id "record updated"),
       Some (List.map (fun r =>
               if String.eqb (to_string (prop r "id")) (to_string id)
               then JObj (spread (members r) (members data)) else r) records))
  end.

(** The SDK, loaded and initialised, for a given current user and given
    widget variables. *)
Definition sdk (user : Completion JValue) (variables : Completion JValue)
  : SetupAPI.ZohoSDK Crm :=
  {| SetupAPI.zohoDefined := fun _ => true;
     SetupAPI.hasGetCurrentUser := fun _ => true;
     SetupAPI.hasConfig := true;
     SetupAPI.getCurrentUser := user;
     SetupAPI.getVariables := variables;
     SetupAPI.getRecords := crmGetRecords;
     SetupAPI.updateRecord := crmUpdateRecord;
     SetupAPI.insertRecord := crmInsertRecord |}.

(** The widget inside the CRM (in an iframe), and on its own. *)
Definition embedded (params : list (string * string)) : SetupAPI.Browser :=
  {| SetupAPI.inIframe := true;
     SetupAPI.urlParams := params;
     SetupAPI.storageAccepts := fun _ _ => true |}.

Definition standalone : SetupAPI.Browser :=
  {| SetupAPI.inIframe := false;
     SetupAPI.urlParams := [];
     SetupAPI.storageAccepts := fun _ _ => true |}.

(** A user with a standard role and profile. *)
Definition standardUser : JValue :=
  JObj [("users", JArr [JObj [
    ("id", JStr "4150868000000225013");
    ("full_name", JStr "Sam Field");
    ("role", JObj [("name", JStr "Sales Rep"); ("id", JStr "4150868000000026008")]);
    ("profile", JObj [("name", JStr "Standard"); ("id", JStr "4150868000000026014")])]])].

(** A user whose role and profile carry the name of a sales manager: not an
    administrator role or profile, and no admin flag. *)
Definition salesManager : JValue :=
  JObj [("users", JArr [JObj [
    ("id", JStr "4150868000000225021");
    ("full_name", JStr "Kim Lane");
    ("role", JObj [("name", JStr "Sales Manager"); ("id", JStr "4150868000000026011")]);
    ("profile", JObj [("name", JStr "Sales Manager"); ("id", JStr "4150868000000026017")])]])].

Definition noVariables : Completion JValue := Normal (JObj []).

(** A complete configuration, as the setup form submits it. *)
Definition completeConfig : JValue :=
  JObj [
    ("clientId", JStr "AYKueA9CuMXe7fMj8QfJM722F98NwZyA");
    ("environment", JStr "production");
    ("redirectUri", JStr "https://127.0.0.1:5001/app/widget.html");
    ("tenantId", JNull);
    ("brandCode", JNull);
    ("isActive", JBool true)].

(** A record of the setup module with a client id and a redirect URI and no
    environment, and one with a client id only. *)
Definition recordWithoutEnvironment : JValue :=
  JObj [
    ("id", JStr "5000000000"); 
    ("Client_Id__c", JStr "A");
    ("Redirect_Uri__c", JStr "https://crm.zoho.com/crm/tab/WebTab13")].

Definition recordWithClientIdOnly : JValue :=
  JObj [("id", JStr "5000000000"); ("Client_Id__c", JStr "A")].

(** The no-break space U+00A0, as a text of one character. *)
Definition nbsp : string := String "160"%char "".

(** Widget variables that set every field. *)
Definition fullVariables : JValue :=
  JObj [
    ("client_id", JStr "B");
    ("environment", JStr "production");
    ("redirect_uri", JStr "https://crm.zoho.com/crm/tab/WebTab13")].

Definition emptyStore (c : Crm) : SetupAPI.Store Crm :=
  SetupAPI.Build_Store ∅ c.

End Scenario.

(** ** Concrete sessions, servers and stores for the examples below *)
Module AuthScenario.
Import JS Fetch.

Definition sandboxConfig : SideDrawerAuth.OAuthConfig :=
  {| SideDrawerAuth.tokenEndpoint := "https://auth-sbx.sidedrawersbx.com/oauth/token";
     SideDrawerAuth.clientId := JStr "AYKueA9CuMXe7fMj8QfJM722F98NwZyA";
     SideDrawerAuth.clientSecret := JUndefined;
     SideDrawerAuth.audience := JStr "https://user-api-sbx.sidedrawersbx.com" |}.

Definition env (now : Z) (network : Network) : SideDrawerAuth.Env :=
  {| SideDrawerAuth.OAUTH_CONFIG := sandboxConfig;
     SideDrawerAuth.now := now;
     SideDrawerAuth.network := network;
     SideDrawerAuth.storageAccepts := fun _ _ => true |}.

(** A widget that has just been loaded, with the given session and refresh
    token. *)
Definition loaded (session : JValue) (refreshToken : option string) : SideDrawerAuth.State :=
  {| SideDrawerAuth.sdSession := session;
     SideDrawerAuth.localStorage :=
       match refreshToken with
       | Some t => {[ SideDrawerAuth.refreshTokenKey := t ]}
       | None => ∅
       end;
     SideDrawerAuth.shown := SideDrawerAuth.Connecting;
     SideDrawerAuth.sent := [] |}.

Definition session (accessToken : string) (expiresAt : Z) : JValue :=
  JObj [("accessToken", JStr accessToken);
        ("expiresAt", JNum (Fin expiresAt));
        ("tokenType", JStr "Bearer")].

(** A session object as [saveTokens] builds it from an answer that has no
    access token: the member is there with the value [undefined]. *)
Definition sessionWithoutToken (expiresAt : Z) : JValue :=
  JObj [("accessToken", JUndefined);
        ("expiresAt", JNum (Fin expiresAt));
        ("tokenType", JStr "Bearer")].

(** A token endpoint whose answer has a lifetime and no access token. *)
Definition tokenless : Network := fun _ =>
  Responded {| status := 200;
               json := Normal (JObj [("token_type", JStr "Bearer");
                                     ("expires_in", JNum (Fin 3600))]) |}.

(** A token endpoint that grants a new access token, one that answers 400
    with the error object of a revoked refresh token, and a network that is
    down. *)
Definition granting : Network := fun _ =>
  Responded {| status := 200;
               json := Normal (JObj [("access_token", JStr "t2");
                                     ("expires_in", JNum (Fin 3600));
                                     ("token_type", JStr "Bearer")]) |}.

Definition rejecting : Network := fun _ =>
  Responded {| status := 400;
               json := Normal (JObj [("error", JStr "invalid_grant");
                                     ("error_description",
                                      JStr "Unknown or invalid refresh token.")]) |}.

(** A token endpoint that grants a new access token and a new refresh
    token. *)
Definition rotating : Network := fun _ =>
  Responded {| status := 200;
               json := Normal (JObj [("access_token", JStr "t2");
                                     ("refresh_token", JStr "r2");
                                     ("expires_in", JNum (Fin 3600));
                                     ("token_type", JStr "Bearer")]) |}.

Definition offline : Network := fun _ => Failed "TypeError: Failed to fetch".

(** The local storage of the REST helper with a token that expired at the
    given time, and a server that answers every request with a user. *)
Definition helperStorage (token : string) (expiry : Z) : gmap string string :=
  <[ SideDrawerAPI.accessTokenKey := token ]>
    (<[ SideDrawerAPI.tokenExpiryKey := pretty expiry ]> ∅).

Definition serving : Network := fun _ =>
  Responded {| status := 200; json := Normal (JObj [("id", JStr "u1")]) |}.

End AuthScenario.

(** ** The credential resolution as the specification words it (section 4.2) *)
Module Resolver.
Import JS.

(** The first source, in priority order, whose value for the field is not
    empty. *)
Fixpoint firstNonEmpty (field : string) (sources : list JValue) : JValue :=
  match sources with
  | [] => JUndefined
  | source :: rest =>
      if truthy (get_opt source field) then get_opt source field
      else firstNonEmpty field rest
  end.

(** Field-by-field merge of the sources, with the default environment. *)
Definition resolveFieldByField (sources : list JValue) : JValue :=
  JObj [
    ("clientId", firstNonEmpty "clientId" sources);
    ("environment", or_else (firstNonEmpty "environment" sources) (JStr "sandbox"));
    ("redirectUri", firstNonEmpty "redirectUri" sources)
  ].

(** The widget variables and the URL parameters under the field names of a
    configuration. *)
Definition ofWidgetVariables (w : JValue) : JValue :=
  JObj [
    ("clientId", get_opt w "client_id");
    ("environment", get_opt w "environment");
    ("redirectUri", get_opt w "redirect_uri")
  ].

Definition ofUrlParams (params : list (string * string)) : JValue :=
  JObj [
    ("clientId", SetupAPI.searchGet params "client_id");
    ("environment", SetupAPI.searchGet params "environment");
    ("redirectUri", SetupAPI.searchGet params "redirect_uri")
  ].

End Resolver.

(** ** [app/setup-api.js]: deleting the stored configuration *)
Module SetupAPIDelete.
Import JS SetupAPI.

Definition deletePermissionDenied : string :=
  "Permission denied: Only users with " +:+ dq +:+ "Manage Organization" +:+ dq
  +:+ " rights can delete credentials.".

Section Host.
Context {S : Type}.
Variable b : Browser.
Variable zoho : ZohoSDK S.
(** [await ZOHO.CRM.API.deleteRecord({Entity, RecordID})] *)
Variable deleteRecord : JValue -> S -> Completion JValue * S.

Definition deleteSetupConfig (st : Store S) : Completion bool * Store S :=
  let isStandalone := isStandaloneMode b in
  if isStandalone then
    (Normal true,
     Build_Store (delete "sd_widget_setup_config" (localStorage st)) (crm st))
  else
    let hasPermission := checkUserHasManageOrgPermission b zoho (localStorage st) in
    if negb hasPermission then (Throw deletePermissionDenied, st)
    else
      let existingConfig := getSetupConfig b zoho (crm st) in
      if truthy existingConfig && truthy (prop existingConfig "id") then
        let '(r, c') := deleteRecord (prop existingConfig "id") (crm st) in
        match r with
        | Normal _ => (Normal true, Build_Store (localStorage st) c')
        | Throw m => (Throw m, Build_Store (localStorage st) c')
        end
      else (Normal false, st).

End Host.

End SetupAPIDelete.

(** ** [app/setup-modal.js]: the form that saves the credentials *)
Module SetupModal.
Import JS SetupAPI.

(** The values of the five inputs of the form when Save is pressed. *)
Record Form := {
  clientIdInput : string;
  environmentInput : string;
  redirectUriInput : string;
  tenantIdInput : string;
  brandCodeInput : string
}.

(** What [showError] or [showSuccess] puts on the form. *)
Inductive Message :=
| ErrorMessage (text : string)
| SuccessMessage (text : string).

Definition savedMessage : string := "Configuration saved successfully! Reloading widget...".

(** The object [save] hands to [SetupAPI.saveSetupConfig]. *)
Definition formConfig (f : Form) : JValue :=
  let clientId := trim (clientIdInput f) in
  let environment := environmentInput f in
  let redirectUri := trim (redirectUriInput f) in
  let tenantId := trim (tenantIdInput f) in
  let brandCode := trim (brandCodeInput f) in
  JObj [
    ("clientId", JStr clientId);
    ("environment", JStr environment);
    ("redirectUri", JStr redirectUri);
    ("tenantId", or_else (JStr tenantId) JNull);
    ("brandCode", or_else (JStr brandCode) JNull);
    ("isActive", JBool true)
  ].

Section Host.
Context {S : Type}.
(** [window.SetupAPI] is there with its functions *)
Variable apiLoaded : bool.
Variable b : Browser.
Variable zoho : ZohoSDK S.

Definition checkPermission (ls : gmap string string) : bool :=
  let isStandalone := negb (inIframe b) in
  if isStandalone then true
  else if apiLoaded then checkUserHasManageOrgPermission b zoho ls
  else false.

(** [save()]: the message it leaves on the form and the store it leaves. *)
Definition save (f : Form) (st : Store S) : Message * Store S :=
  let hasPermission := checkPermission (localStorage st) in
  if negb hasPermission then (ErrorMessage permissionDenied, st)
  else
    let clientId := trim (clientIdInput f) in
    let environment := environmentInput f in
    let redirectUri := trim (redirectUriInput f) in
    if negb (truthy (JStr clientId)) then (ErrorMessage "Client ID is required", st)
    else if negb (truthy (JStr redirectUri)) then (ErrorMessage "Redirect URI is required", st)
    else if negb (String.eqb environment "sandbox" || String.eqb environment "production")
    then (ErrorMessage environmentInvalid, st)
    else if negb apiLoaded then (ErrorMessage "Setup API not available", st)
    else
      let config := formConfig f in
      match saveSetupConfig b zoho config st with
      | (Throw message, st') =>
          (ErrorMessage (to_string (or_else (JStr message) (JStr "Failed to save configuration"))),
           st')
      | (Normal _, st') =>
          let isStandalone := negb (inIframe b) in
          let text := stringify_arg config in
          (SuccessMessage savedMessage,
           if isStandalone && storageAccepts b "sd_widget_setup_config" text
           then Build_Store (<["sd_widget_setup_config" := text]> (localStorage st')) (crm st')
           else st')
      end.

End Host.

End SetupModal.

(** ** The other methods of [SideDrawerAPI] *)
Module Wrappers.
Import JS Fetch SideDrawerAPI.



(** The value of a [body: JSON.stringify(v)] member. *)
Definition jsonBody (v : JValue) : JValue :=
  match stringify v with
  | Some text => JStr text
  | None => JUndefined
  end.



Definition getDocument (net : Network) (ls : gmap string string) (documentId : JValue) :=
  request net ls ("/documents/" +:+ to_string documentId) JUndefined.

Definition shareDocument (net : Network) (ls : gmap string string)
    (documentId shareData : JValue) :=
  request net ls ("/documents/" +:+ to_string documentId +:+ "/share")
    (JObj [("method", JStr "POST"); ("body", jsonBody shareData)]).

Definition getClient (net : Network) (ls : gmap string string) (clientId : JValue) :=
  request net ls ("/clients/" +:+ to_string clientId) JUndefined.

Definition createClient (net : Network) (ls : gmap string string) (clientData : JValue) :=
  request net ls "/clients"
    (JObj [("method", JStr "POST"); ("body", jsonBody clientData)]).

Definition updateClient (net : Network) (ls : gmap string string)
    (clientId clientData : JValue) :=
  request net ls ("/clients/" +:+ to_string clientId)
    (JObj [("method", JStr "PATCH"); ("body", jsonBody clientData)]).

(** The object [{ query, ...filters }] that [search] sends. *)
Definition searchPayload (query filters : JValue) : JValue :=
  JObj (spread [("query", query)] (members filters)).

Definition search (net : Network) (ls : gmap string string) (query filters : JValue) :=
  request net ls "/search"
    (JObj [("method", JStr "POST"); ("body", jsonBody (searchPayload query filters))]).

End Wrappers.

(** ** The tenant wizards: process steps, subscription type, what follows a
    created tenant, and the session a signup stores *)
Module TenantWizard.
Import JS SetupAPI.

(** [updateProcessStep(stepKey, status)] on [state.processSteps], each step a
    pair of its key and its status: the first step with the key takes the
    status, and a step is appended when there is none. *)
Fixpoint updateProcessStep (stepKey status : string) (processSteps : list (string * string))
  : list (string * string) :=
  match processSteps with
  | [] => [(stepKey, status)]
  | (key, old) :: rest =>
      if String.eqb key stepKey then (key, status) :: rest
      else (key, old) :: updateProcessStep stepKey status rest
  end.

(** [processSteps.find(s => s.key === stepKey)], as the status found. *)
Fixpoint findStep (stepKey : string) (processSteps : list (string * string)) : option string :=
  match processSteps with
  | [] => None
  | (key, status) :: rest =>
      if String.eqb key stepKey then Some status else findStep stepKey rest
  end.

Definition getSubscriptionTypeFromPrice (price : JValue) : string :=
  if negb (truthy price) || negb (truthy (prop price "metadata")) then "users"
  else
    let audience := prop (prop price "metadata") "product.audience" in
    if strict_eq_str audience "users" then "users"
    else if strict_eq_str audience "pros" || strict_eq_str audience "retail" then "sidedrawers"
    else "users".

Section Host.
Context {S : Type}.
(** [window.SetupAPI] is there with its functions *)
Variable apiLoaded : bool.
Variable b : Browser.
Variable zoho : ZohoSDK S.

(** [showSuccess(tenant)]: whether it goes on to open the setup form with the
    tenant id filled in (and returns before installing the plain Continue
    button). *)
Definition opensSetupAfterSuccess (tenant : JValue) (st : Store S) : bool :=
  if truthy tenant && truthy (prop tenant "id") then
    let hasPermission :=
      if apiLoaded then checkUserHasManageOrgPermission b zoho (localStorage st) else false in
    if hasPermission then
      let existingConfig := if apiLoaded then getSetupConfig b zoho (crm st) else JNull in
      negb (truthy existingConfig) || negb (truthy (prop existingConfig "clientId"))
    else false
  else false.

End Host.


End TenantWizard.

(* ===================================================================== *)
(** * Part II.  Properties                                                *)
(* ===================================================================== *)

Import JS Fetch.

(** ** Standalone mode of [saveSetupConfig] and [getCredentials] *)

Section Standalone.
Context {S : Type}.
Variable b : SetupAPI.Browser.
Variable zoho : SetupAPI.ZohoSDK S.
Hypothesis Hstandalone : SetupAPI.isStandaloneMode b = true.

Lemma getCredentials_standalone (st : SetupAPI.Store S) :
  SetupAPI.getCredentials b zoho st = JNull.
Proof. unfold SetupAPI.getCredentials. by rewrite Hstandalone. Qed.

Lemma saveSetupConfig_standalone_eq (config : JValue) (st : SetupAPI.Store S) :
  SetupAPI.saveSetupConfig b zoho config st =
    let text := stringify_arg config in
    if SetupAPI.storageAccepts b "sd_widget_setup_config" text
    then (Normal config,
          SetupAPI.Build_Store (<["sd_widget_setup_config" := text]> (SetupAPI.localStorage st))
                               (SetupAPI.crm st))
    else (Throw "Failed to save configuration in standalone mode", st).
Proof. unfold SetupAPI.saveSetupConfig. by rewrite Hstandalone. Qed.

End Standalone.

(** C10.  In standalone mode [saveSetupConfig] neither checks the permission
    nor validates a field: whatever the SDK says about the user and whatever
    the input [config] is, the call stores the JSON text of [config] under
    [sd_widget_setup_config] and returns [config] itself when the storage
    takes the write, and it throws (leaving the store as it was) exactly when
    the storage refuses the write. *)
Theorem saveSetupConfig_standalone_verbatim {S : Type}
    (b : SetupAPI.Browser) (zoho : SetupAPI.ZohoSDK S)
    (config : JValue) (st : SetupAPI.Store S) :
  SetupAPI.isStandaloneMode b = true ->
  let text := stringify_arg config in
  let accepted := SetupAPI.storageAccepts b "sd_widget_setup_config" text in
  let r := SetupAPI.saveSetupConfig b zoho config st in
  (accepted = true ->
     fst r = Normal config
     /\ SetupAPI.localStorage (snd r)
        = <["sd_widget_setup_config" := text]> (SetupAPI.localStorage st)
     /\ SetupAPI.crm (snd r) = SetupAPI.crm st)
  /\ (accepted = false ->
     fst r = Throw "Failed to save configuration in standalone mode" /\ snd r = st)
  /\ is_throw (fst r) = negb accepted.
Proof.
  intros Hs text accepted r. subst r.
  rewrite (saveSetupConfig_standalone_eq b zoho Hs). cbv zeta.
  fold text. fold accepted.
  destruct accepted; repeat split; intros; try discriminate; reflexivity.
Qed.

(** An input that fails every check of the embedded path (empty client id,
    unknown environment, no redirect URI), saved by a user who is no
    administrator. *)
Lemma saveSetupConfig_standalone_verbatim_witness :
  let config := JObj [("clientId", JStr ""); ("environment", JStr "staging")] in
  let r := SetupAPI.saveSetupConfig Scenario.standalone
             (Scenario.sdk (Normal Scenario.standardUser) Scenario.noVariables)
             config (Scenario.emptyStore None) in
  fst r = Normal config
  /\ SetupAPI.localStorage (snd r) !! "sd_widget_setup_config" = Some (stringify_arg config)
  /\ parse (stringify_arg config) = Normal config.
Proof.
  cbv zeta.
  pose proof (saveSetupConfig_standalone_verbatim Scenario.standalone
                (Scenario.sdk (Normal Scenario.standardUser) Scenario.noVariables)
                (JObj [("clientId", JStr ""); ("environment", JStr "staging")])
                (Scenario.emptyStore None) eq_refl) as H.
  cbv zeta in H. destruct H as [H _].
  destruct (H eq_refl) as (H1 & H2 & _).
  split; [exact H1 | split].
  - rewrite H2. apply lookup_insert_eq.
  - vm_compute. reflexivity.
Defined.

(** C6.  After a configuration with a client id is saved in standalone mode,
    the text is in local storage and the local-storage step of
    [getCredentials] would resolve it, but [getCredentials] returns [null]:
    its first statement returns before that step is reached. *)
Theorem getCredentials_after_standalone_save :
  let zoho := Scenario.sdk (Normal Scenario.standardUser) Scenario.noVariables in
  let r := SetupAPI.saveSetupConfig Scenario.standalone zoho Scenario.completeConfig
             (Scenario.emptyStore None) in
  fst r = Normal Scenario.completeConfig
  /\ SetupAPI.localStorage (snd r) !! "sd_widget_setup_config"
     = Some (stringify_arg Scenario.completeConfig)
  /\ SetupAPI.localStorageStep (SetupAPI.localStorage (snd r))
     = Some (SetupAPI.fromLocalStorage Scenario.completeConfig)
  /\ prop (SetupAPI.fromLocalStorage Scenario.completeConfig) "clientId"
     = JStr "AYKueA9CuMXe7fMj8QfJM722F98NwZyA"
  /\ SetupAPI.getCredentials Scenario.standalone zoho (snd r) = JNull.
Proof.
  cbv zeta.
  assert (Hls : SetupAPI.localStorage
            (snd (SetupAPI.saveSetupConfig Scenario.standalone
               (Scenario.sdk (Normal Scenario.standardUser) Scenario.noVariables)
               Scenario.completeConfig (Scenario.emptyStore None)))
          !! "sd_widget_setup_config" = Some (stringify_arg Scenario.completeConfig)).
  { rewrite saveSetupConfig_standalone_eq by reflexivity. cbn. apply lookup_insert_eq. }
  split; [reflexivity | split; [exact Hls | split; [| split]]].
  - unfold SetupAPI.localStorageStep, getItem. rewrite Hls.
    vm_compute. reflexivity.
  - reflexivity.
  - apply getCredentials_standalone. reflexivity.
Qed.

(** ** Embedded mode of [getCredentials] *)

Lemma truthy_not_nullish (v : JValue) : truthy v = true -> nullish v = false.
Proof. by destruct v. Qed.

Lemma usable_clientId (config : JValue) (idField : string) :
  SetupAPI.usable config idField = true -> truthy (prop config idField) = true.
Proof.
  unfold SetupAPI.usable, get_opt. intros [Hc Hid]%andb_prop.
  by rewrite (truthy_not_nullish _ Hc) in Hid.
Qed.

Lemma widgetVariablesStep_None {S : Type} (zoho : SetupAPI.ZohoSDK S) :
  SetupAPI.widgetVariablesStep zoho = None <->
  SetupAPI.hasConfig zoho = false
  \/ is_throw (SetupAPI.getVariables zoho) = true
  \/ exists w, SetupAPI.getVariables zoho = Normal w /\ SetupAPI.usable w "client_id" = false.
Proof.
  unfold SetupAPI.widgetVariablesStep.
  destruct (SetupAPI.hasConfig zoho); [| by split; [left |]].
  destruct (SetupAPI.getVariables zoho) as [w | m]; cbn.
  - destruct (SetupAPI.usable w "client_id") eqn:Hu.
    + split; [discriminate |]. intros [? | [? | (w' & [= <-] & Hw')]]; congruence.
    + split; [| done]. intros _. right. right. by exists w.
  - split; [| done]. intros _. right. by left.
Qed.

Section Embedded.
Context {S : Type}.
Variable b : SetupAPI.Browser.
Variable zoho : SetupAPI.ZohoSDK S.
Hypothesis Hembedded : SetupAPI.isStandaloneMode b = false.

Lemma getCredentials_embedded_eq (st : SetupAPI.Store S) :
  SetupAPI.getCredentials b zoho st =
    let shared := SetupAPI.getSetupConfig b zoho (SetupAPI.crm st) in
    if SetupAPI.usable shared "clientId" then SetupAPI.fromCustomModule shared
    else match SetupAPI.widgetVariablesStep zoho with
         | Some credentials => credentials
         | None => JNull
         end.
Proof.
  unfold SetupAPI.getCredentials. rewrite Hembedded. cbn.
  destruct (SetupAPI.usable _ _); [done |].
  by destruct (SetupAPI.widgetVariablesStep zoho).
Qed.

Lemma checkPermission_embedded (ls : gmap string string) :
  SetupAPI.manualAdmin b ls = false ->
  SetupAPI.userIsAdministrator (SetupAPI.getCurrentUser zoho) = false ->
  SetupAPI.checkUserHasManageOrgPermission b zoho ls = false.
Proof.
  intros Hm Hu. unfold SetupAPI.checkUserHasManageOrgPermission.
  rewrite Hembedded.
  destruct (negb (SetupAPI.zohoDefined zoho _)); [done |].
  destruct (negb (SetupAPI.hasGetCurrentUser zoho _)); [done |].
  unfold SetupAPI.userIsAdministrator in Hu.
  destruct (SetupAPI.getCurrentUser zoho) as [u | m]; cbn; [| done].
  cbn in Hu. destruct (truthy (index_opt (get_opt u "users") 0)); cbn in *; [| done].
  unfold SetupAPI.checkUserData. rewrite Hm.
  by destruct (SetupAPI.adminByRoleOrProfile _) as [[] |].
Qed.

(** With the override set, the check passes for every user the SDK has data
    for, whatever the role and the profile. *)
Lemma checkPermission_override (ls : gmap string string) (user : JValue) :
  SetupAPI.zohoDefined zoho 0 = true ->
  SetupAPI.hasGetCurrentUser zoho 0 = true ->
  SetupAPI.getCurrentUser zoho = Normal user ->
  truthy (index_opt (get_opt user "users") 0) = true ->
  SetupAPI.manualAdmin b ls = true ->
  SetupAPI.checkUserHasManageOrgPermission b zoho ls = true.
Proof.
  intros Hz Hg Hu Hd Hm. unfold SetupAPI.checkUserHasManageOrgPermission.
  rewrite Hembedded. cbn [SetupAPI.poll SetupAPI.maxAttempts].
  rewrite Hz. cbn [negb]. rewrite Hz. cbn [negb]. rewrite Hg. cbn [negb].
  rewrite Hg, Hu. cbn [negb bind]. rewrite Hd. cbn [negb].
  unfold SetupAPI.checkUserData. by rewrite Hm.
Qed.

End Embedded.

(** The default environment in the three [return] statements: the widget
    variables and the local storage apply it, the custom module does not. *)
Lemma fromWidgetVariables_environment (w : JValue) :
  truthy (prop w "environment") = false ->
  prop (SetupAPI.fromWidgetVariables w) "environment" = JStr "sandbox".
Proof. intros H. cbn. unfold or_else. by rewrite H. Qed.

Lemma fromLocalStorage_environment (config : JValue) :
  truthy (prop config "environment") = false ->
  prop (SetupAPI.fromLocalStorage config) "environment" = JStr "sandbox".
Proof. intros H. cbn. unfold or_else. by rewrite H. Qed.

Lemma fromCustomModule_environment (config : JValue) :
  prop (SetupAPI.fromCustomModule config) "environment" = prop config "environment".
Proof. reflexivity. Qed.

(** C5.  A record of the setup module that has a client id and a redirect
    URI but no environment: the credentials come from the custom module and
    their environment is [null], not [sandbox]; the same fields given as
    widget variables resolve with the environment [sandbox]. *)
Theorem getCredentials_custom_module_environment_unset :
  let b := Scenario.embedded [] in
  let shared := SetupAPI.getCredentials b
                  (Scenario.sdk (Normal Scenario.standardUser) Scenario.noVariables)
                  (Scenario.emptyStore (Some [Scenario.recordWithoutEnvironment])) in
  let variables := SetupAPI.getCredentials b
                  (Scenario.sdk (Normal Scenario.standardUser)
                     (Normal (JObj [("client_id", JStr "A");
                                    ("redirect_uri", JStr "https://crm.zoho.com/crm/tab/WebTab13")])))
                  (Scenario.emptyStore (Some [])) in
  prop shared "source" = JStr "custom_module"
  /\ prop shared "clientId" = JStr "A"
  /\ prop shared "environment" = JNull
  /\ prop variables "source" = JStr "widget_variables"
  /\ prop variables "environment" = JStr "sandbox".
Proof. vm_compute. repeat split. Qed.

(** C3, as stated, fails: with a shared record that has only a client id and
    widget variables that set every field, a field-by-field merge takes the
    redirect URI and the environment from the widget variables, while
    [getCredentials] takes every field from the shared record. *)
Lemma getCredentials_not_field_by_field :
  let b := Scenario.embedded [("client_id", "B")] in
  let zoho := Scenario.sdk (Normal Scenario.standardUser) (Normal Scenario.fullVariables) in
  let c := Some [Scenario.recordWithClientIdOnly] in
  let merged := Resolver.resolveFieldByField
                  [SetupAPI.getSetupConfig b zoho c;
                   Resolver.ofWidgetVariables Scenario.fullVariables;
                   Resolver.ofUrlParams (SetupAPI.urlParams b);
                   JNull] in
  let resolved := SetupAPI.getCredentials b zoho (Scenario.emptyStore c) in
  prop merged "clientId" = JStr "A"
  /\ prop merged "redirectUri" = JStr "https://crm.zoho.com/crm/tab/WebTab13"
  /\ prop merged "environment" = JStr "production"
  /\ prop resolved "clientId" = JStr "A"
  /\ prop resolved "redirectUri" = JNull
  /\ prop resolved "environment" = JNull.
Proof. vm_compute. repeat split. Qed.

(** C3, amended.  In embedded mode [getCredentials] takes all its fields from
    one source: from the shared record when that has a client id, otherwise
    from the widget variables when those have one.  Neither the URL
    parameters nor local storage take part. *)
Theorem getCredentials_first_source_with_clientId {S : Type}
    (b : SetupAPI.Browser) (zoho : SetupAPI.ZohoSDK S) (st : SetupAPI.Store S) :
  SetupAPI.isStandaloneMode b = false ->
  let shared := SetupAPI.getSetupConfig b zoho (SetupAPI.crm st) in
  (SetupAPI.usable shared "clientId" = true ->
     SetupAPI.getCredentials b zoho st = SetupAPI.fromCustomModule shared)
  /\ (SetupAPI.usable shared "clientId" = false ->
      forall w, SetupAPI.hasConfig zoho = true ->
        SetupAPI.getVariables zoho = Normal w ->
        SetupAPI.usable w "client_id" = true ->
        SetupAPI.getCredentials b zoho st = SetupAPI.fromWidgetVariables w)
  /\ (forall params accepts ls,
        SetupAPI.getCredentials
          {| SetupAPI.inIframe := SetupAPI.inIframe b;
             SetupAPI.urlParams := params;
             SetupAPI.storageAccepts := accepts |}
          zoho (SetupAPI.Build_Store ls (SetupAPI.crm st))
        = SetupAPI.getCredentials b zoho st).
Proof.
  intros Hb shared. subst shared. split; [| split].
  - intros Hu. rewrite (getCredentials_embedded_eq b zoho Hb). cbv zeta. by rewrite Hu.
  - intros Hu w Hc Hv Hw. rewrite (getCredentials_embedded_eq b zoho Hb). cbv zeta.
    rewrite Hu. unfold SetupAPI.widgetVariablesStep. by rewrite Hc, Hv, Hw.
  - intros params accepts ls.
    unfold SetupAPI.getCredentials, SetupAPI.getSetupConfig,
      SetupAPI.checkSetupModuleExists, SetupAPI.isStandaloneMode in *.
    cbn. by rewrite Hb.
Qed.

(** The shared record has the client id A and the URL carries the client id
    B: the resolution yields A. *)
Lemma getCredentials_first_source_with_clientId_witness :
  let b := Scenario.embedded [("client_id", "B")] in
  let zoho := Scenario.sdk (Normal Scenario.standardUser) Scenario.noVariables in
  let st := Scenario.emptyStore (Some [Scenario.recordWithoutEnvironment]) in
  SetupAPI.isStandaloneMode b = false
  /\ prop (SetupAPI.getCredentials b zoho st) "clientId" = JStr "A".
Proof.
  cbv zeta. split; [reflexivity |].
  pose proof (getCredentials_first_source_with_clientId
                (Scenario.embedded [("client_id", "B")])
                (Scenario.sdk (Normal Scenario.standardUser) Scenario.noVariables)
                (Scenario.emptyStore (Some [Scenario.recordWithoutEnvironment]))
                eq_refl) as H.
  cbv zeta in H. destruct H as [H _]. rewrite (H eq_refl). reflexivity.
Defined.

(** C4, as stated, fails: a shared record with a client id and no redirect
    URI resolves, and the resolved configuration has no redirect URI. *)
Lemma getCredentials_without_redirectUri :
  let r := SetupAPI.getCredentials (Scenario.embedded [])
             (Scenario.sdk (Normal Scenario.standardUser) Scenario.noVariables)
             (Scenario.emptyStore (Some [Scenario.recordWithClientIdOnly])) in
  truthy r = true
  /\ prop r "clientId" = JStr "A"
  /\ prop r "redirectUri" = JNull
  /\ truthy (prop r "redirectUri") = false.
Proof. vm_compute. repeat split. Qed.

(** C4, amended.  Whenever [getCredentials] yields credentials their client
    id is not empty; and in embedded mode it yields [null] exactly when the
    shared record has no client id and the widget variables have none
    either (they are not there, reading them fails, or their client id is
    empty).  The redirect URI plays no part. *)
Theorem getCredentials_null_iff_no_clientId {S : Type}
    (b : SetupAPI.Browser) (zoho : SetupAPI.ZohoSDK S) (st : SetupAPI.Store S) :
  let r := SetupAPI.getCredentials b zoho st in
  let shared := SetupAPI.getSetupConfig b zoho (SetupAPI.crm st) in
  (r <> JNull -> truthy (prop r "clientId") = true)
  /\ (SetupAPI.isStandaloneMode b = false ->
      (r = JNull <->
       SetupAPI.usable shared "clientId" = false
       /\ (SetupAPI.hasConfig zoho = false
           \/ is_throw (SetupAPI.getVariables zoho) = true
           \/ exists w, SetupAPI.getVariables zoho = Normal w
                        /\ SetupAPI.usable w "client_id" = false))).
Proof.
  cbv zeta. destruct (SetupAPI.isStandaloneMode b) eqn:Hb.
  - rewrite (getCredentials_standalone b zoho Hb). split; [done | discriminate].
  - rewrite (getCredentials_embedded_eq b zoho Hb). cbv zeta.
    rewrite <- widgetVariablesStep_None.
    destruct (SetupAPI.usable (SetupAPI.getSetupConfig b zoho (SetupAPI.crm st)) "clientId")
      eqn:Hu.
    + split.
      * intros _. by apply (usable_clientId _ _ Hu).
      * intros _. split; [discriminate | intros [? _]; discriminate].
    + unfold SetupAPI.widgetVariablesStep.
      destruct (SetupAPI.hasConfig zoho); [| by split; [| intros _; split]].
      destruct (SetupAPI.getVariables zoho) as [w | m]; [| by split; [| intros _; split]].
      destruct (SetupAPI.usable w "client_id") eqn:Hw; [| by split; [| intros _; split]].
      split.
      * intros _. by apply (usable_clientId _ _ Hw).
      * intros _. split; [discriminate | intros [_ ?]; discriminate].
Qed.

(** No record and no widget variables: no credentials; a record with a
    client id: credentials with that client id. *)
Lemma getCredentials_null_iff_no_clientId_witness :
  let b := Scenario.embedded [] in
  let zoho := Scenario.sdk (Normal Scenario.standardUser) Scenario.noVariables in
  SetupAPI.isStandaloneMode b = false
  /\ SetupAPI.getCredentials b zoho (Scenario.emptyStore (Some [])) = JNull
  /\ truthy (prop (SetupAPI.getCredentials b zoho
                     (Scenario.emptyStore (Some [Scenario.recordWithClientIdOnly])))
                  "clientId") = true.
Proof.
  cbv zeta. split; [reflexivity | split].
  - pose proof (getCredentials_null_iff_no_clientId (Scenario.embedded [])
                  (Scenario.sdk (Normal Scenario.standardUser) Scenario.noVariables)
                  (Scenario.emptyStore (Some []))) as H.
    cbv zeta in H. destruct H as [_ H]. apply (H eq_refl).
    split; [reflexivity |]. right. right. exists (JObj []). split; reflexivity.
  - pose proof (getCredentials_null_iff_no_clientId (Scenario.embedded [])
                  (Scenario.sdk (Normal Scenario.standardUser) Scenario.noVariables)
                  (Scenario.emptyStore (Some [Scenario.recordWithClientIdOnly]))) as H.
    cbv zeta in H. destruct H as [H _]. apply H. discriminate.
Defined.

(** ** The permission check of [saveSetupConfig] *)

(** C2.  The record is written for users without the rights.  A user who
    meets none of the administrator criteria opens the widget with
    [admin=true] in the URL, or has [sd_force_admin] set to [true] in local
    storage: the permission check passes, [saveSetupConfig] returns the saved
    configuration and the setup module has a new record.  With no override
    at all the same happens for a user whose profile is named Sales Manager:
    the name contains [manager], which the check takes for administrator
    rights. *)
Theorem saveSetupConfig_written_without_rights :
  let zoho := fun user => Scenario.sdk (Normal user) Scenario.noVariables in
  let written := Some [JObj [
         ("id", JStr "5000000000");
         ("Client_Id__c", JStr "AYKueA9CuMXe7fMj8QfJM722F98NwZyA");
         ("Environment__c", JStr "production");
         ("Redirect_Uri__c", JStr "https://127.0.0.1:5001/app/widget.html");
         ("Tenant_Id__c", JNull);
         ("Brand_Code__c", JNull);
         ("Is_Active__c", JBool true)]] in
  let byUrl := SetupAPI.saveSetupConfig (Scenario.embedded [("admin", "true")])
                 (zoho Scenario.standardUser) Scenario.completeConfig
                 (Scenario.emptyStore (Some [])) in
  let byStorage := SetupAPI.saveSetupConfig (Scenario.embedded [])
                     (zoho Scenario.standardUser) Scenario.completeConfig
                     (SetupAPI.Build_Store {[ "sd_force_admin" := "true" ]} (Some [])) in
  let byProfileName := SetupAPI.saveSetupConfig (Scenario.embedded [])
                         (zoho Scenario.salesManager) Scenario.completeConfig
                         (Scenario.emptyStore (Some [])) in
  SetupAPI.isStandaloneMode (Scenario.embedded [("admin", "true")]) = false
  /\ SetupAPI.isStandaloneMode (Scenario.embedded []) = false
  /\ SetupAPI.userIsAdministrator (Normal Scenario.standardUser) = false
  /\ (is_throw (fst byUrl) = false /\ SetupAPI.crm (snd byUrl) = written)
  /\ (is_throw (fst byStorage) = false /\ SetupAPI.crm (snd byStorage) = written)
  /\ SetupAPI.manualAdmin (Scenario.embedded []) ∅ = false
  /\ SetupAPI.checkUserHasManageOrgPermission (Scenario.embedded [])
       (zoho Scenario.salesManager) ∅ = true
  /\ (is_throw (fst byProfileName) = false /\ SetupAPI.crm (snd byProfileName) = written).
Proof. vm_compute. repeat split. Qed.

(** What the check does keep out: in embedded mode, for a user who meets
    none of the criteria of the check and with the override not set (neither
    [admin=true] in the URL nor [sd_force_admin] equal to [true] in local
    storage), [saveSetupConfig] throws the permission error and leaves the
    store, and with it the shared record, as it was. *)
Lemma saveSetupConfig_permission_denied {S : Type}
    (b : SetupAPI.Browser) (zoho : SetupAPI.ZohoSDK S)
    (config : JValue) (st : SetupAPI.Store S) :
  SetupAPI.isStandaloneMode b = false ->
  SetupAPI.userIsAdministrator (SetupAPI.getCurrentUser zoho) = false ->
  SetupAPI.manualAdmin b (SetupAPI.localStorage st) = false ->
  SetupAPI.saveSetupConfig b zoho config st = (Throw SetupAPI.permissionDenied, st).
Proof.
  intros Hb Hu Hm. unfold SetupAPI.saveSetupConfig. rewrite Hb.
  by rewrite (checkPermission_embedded b zoho Hb _ Hm Hu).
Qed.

Lemma saveSetupConfig_permission_denied_witness :
  let b := Scenario.embedded [] in
  let zoho := Scenario.sdk (Normal Scenario.standardUser) Scenario.noVariables in
  let st := Scenario.emptyStore (Some [Scenario.recordWithoutEnvironment]) in
  SetupAPI.saveSetupConfig b zoho Scenario.completeConfig st
  = (Throw SetupAPI.permissionDenied, st).
Proof.
  cbv zeta.
  apply (saveSetupConfig_permission_denied (Scenario.embedded [])
           (Scenario.sdk (Normal Scenario.standardUser) Scenario.noVariables)
           Scenario.completeConfig
           (Scenario.emptyStore (Some [Scenario.recordWithoutEnvironment])));
    vm_compute; reflexivity.
Defined.

(** ** The expiry check and the session controller *)

Lemma bufferTime_value : SideDrawerAuth.bufferTime = 300 * 1000.
Proof. reflexivity. Qed.

Lemma isTokenExpired_iff (now expiresAt : Z) :
  SideDrawerAuth.isTokenExpired now (JNum (Fin expiresAt)) = true
  <-> now >= expiresAt - SideDrawerAuth.bufferTime.
Proof. unfold SideDrawerAuth.isTokenExpired. cbn. rewrite Z.leb_le. lia. Qed.

Lemma isAuthenticated_true (now : Z) (ls : gmap string string) :
  SideDrawerAPI.isAuthenticated now ls = true ->
  exists token expiry e,
    ls !! SideDrawerAPI.accessTokenKey = Some token /\ token <> ""
    /\ ls !! SideDrawerAPI.tokenExpiryKey = Some expiry
    /\ parseInt expiry = Fin e /\ now < e.
Proof.
  unfold SideDrawerAPI.isAuthenticated, SideDrawerAPI.getAccessToken, getItem.
  destruct (ls !! SideDrawerAPI.accessTokenKey) as [token |]; [| done].
  destruct (ls !! SideDrawerAPI.tokenExpiryKey) as [expiry |]; cbn.
  - destruct (String.eqb_spec token ""); cbn; [done |].
    destruct (String.eqb expiry ""); cbn; [done |].
    destruct (parseInt expiry) as [| e] eqn:He; cbn; [done |].
    intros Hlt%Z.ltb_lt. by exists token, expiry, e.
  - by rewrite orb_true_r.
Qed.

Lemma saveTokens_sent (e : SideDrawerAuth.Env) (tokenData : JValue)
    (st st' : SideDrawerAuth.State) :
  SideDrawerAuth.saveTokens e tokenData st = Normal st' ->
  SideDrawerAuth.sent st' = SideDrawerAuth.sent st.
Proof.
  unfold SideDrawerAuth.saveTokens, get.
  destruct (nullish tokenData); cbn; [done |].
  destruct (truthy (prop tokenData "refresh_token")); [| by intros [= <-]].
  destruct (SideDrawerAuth.storageAccepts e _ _); [by intros [= <-] | done].
Qed.

(** A refresh that is attempted sends exactly one request, whatever the
    answer. *)
Lemma refreshAccessToken_sent (e : SideDrawerAuth.Env) (st : SideDrawerAuth.State) :
  truthy (SideDrawerAuth.getRefreshToken st) = true ->
  SideDrawerAuth.sent (SideDrawerAuth.refreshAccessToken e st)
  = SideDrawerAuth.refreshRequest e (SideDrawerAuth.getRefreshToken st)
    :: SideDrawerAuth.sent st.
Proof.
  intros Ht. unfold SideDrawerAuth.refreshAccessToken. rewrite Ht. cbn.
  destruct (SideDrawerAuth.network e _) as [r | m]; [| done].
  destruct (json r) as [tokenData | m]; [| done].
  destruct (SideDrawerAuth.saveTokens e tokenData _) as [st2 | m] eqn:Hs; [| done].
  cbn. by rewrite (saveTokens_sent _ _ _ _ Hs).
Qed.

(** When the request cannot be carried out, or the body of the answer is
    not JSON, the refresh ends in [disconnect]: both halves of the token
    store are cleared and the status is Disconnected. *)
Lemma refreshAccessToken_exception (e : SideDrawerAuth.Env) (st : SideDrawerAuth.State) :
  truthy (SideDrawerAuth.getRefreshToken st) = true ->
  (match SideDrawerAuth.network e
           (SideDrawerAuth.refreshRequest e (SideDrawerAuth.getRefreshToken st)) with
   | Failed _ => True
   | Responded r => is_throw (json r) = true
   end) ->
  let st' := SideDrawerAuth.refreshAccessToken e st in
  SideDrawerAuth.shown st' = SideDrawerAuth.Disconnected
  /\ SideDrawerAuth.getZohoSession st' = JNull
  /\ SideDrawerAuth.getRefreshToken st' = JNull.
Proof.
  intros Ht Hn. cbv zeta. unfold SideDrawerAuth.refreshAccessToken. rewrite Ht. cbn.
  destruct (SideDrawerAuth.network e _) as [r | m].
  - destruct (json r); [done |]. cbn.
    unfold SideDrawerAuth.getRefreshToken, getItem. cbn.
    by rewrite lookup_delete_eq.
  - cbn. unfold SideDrawerAuth.getRefreshToken, getItem. cbn.
    by rewrite lookup_delete_eq.
Qed.

(** After [disconnect] a later check of the connection sends nothing. *)
Lemma checkConnection_after_disconnect (e : SideDrawerAuth.Env) (st : SideDrawerAuth.State) :
  SideDrawerAuth.checkConnection e (SideDrawerAuth.disconnect st)
  = SideDrawerAuth.disconnect st.
Proof.
  unfold SideDrawerAuth.checkConnection, SideDrawerAuth.getRefreshToken,
    getItem. cbn. by rewrite lookup_delete_eq.
Qed.

(** The status of the answer is never read: an answer is handled as an
    answer 200 with the same body would be. *)
Lemma refreshAccessToken_ignores_status (e : SideDrawerAuth.Env) (st : SideDrawerAuth.State)
    (r : Response) :
  SideDrawerAuth.network e
    (SideDrawerAuth.refreshRequest e (SideDrawerAuth.getRefreshToken st)) = Responded r ->
  SideDrawerAuth.refreshAccessToken e st
  = SideDrawerAuth.refreshAccessToken
      {| SideDrawerAuth.OAUTH_CONFIG := SideDrawerAuth.OAUTH_CONFIG e;
         SideDrawerAuth.now := SideDrawerAuth.now e;
         SideDrawerAuth.network := fun _ => Responded {| status := 200; json := json r |};
         SideDrawerAuth.storageAccepts := SideDrawerAuth.storageAccepts e |} st.
Proof.
  intros Hn. unfold SideDrawerAuth.refreshAccessToken.
  destruct (truthy _); [| reflexivity].
  cbn [negb]. cbv zeta. rewrite Hn. reflexivity.
Qed.

(** C7.  With the buffer of 300 seconds, a token that expires 300 seconds
    from now is expired now; the check is true at [expiresAt - 300 s] and
    false at [expiresAt - 301 s]; in general it is true exactly when
    [now >= expiresAt - bufferTime], and then [checkConnection] does not
    show Connected from the stored session but goes on to the refresh token.
    The REST helper's [isAuthenticated] checks the expiry with no buffer:
    it never holds at or after the stored expiry. *)
Theorem isTokenExpired_boundary :
  SideDrawerAuth.bufferTime = 300 * 1000
  /\ (forall now, SideDrawerAuth.isTokenExpired now (JNum (Fin (now + 300 * 1000))) = true)
  /\ (forall expiresAt,
        SideDrawerAuth.isTokenExpired (expiresAt - 300 * 1000) (JNum (Fin expiresAt)) = true
        /\ SideDrawerAuth.isTokenExpired (expiresAt - 301 * 1000) (JNum (Fin expiresAt)) = false)
  /\ (forall now expiresAt,
        SideDrawerAuth.isTokenExpired now (JNum (Fin expiresAt)) = true
        <-> now >= expiresAt - SideDrawerAuth.bufferTime)
  /\ (forall e st expiresAt,
        prop (SideDrawerAuth.getZohoSession st) "expiresAt" = JNum (Fin expiresAt) ->
        SideDrawerAuth.now e >= expiresAt - SideDrawerAuth.bufferTime ->
        SideDrawerAuth.checkConnection e st
        = if truthy (SideDrawerAuth.getRefreshToken st)
          then SideDrawerAuth.refreshAccessToken e st
          else SideDrawerAuth.showDisconnectedStatus st)
  /\ (forall now ls expiry e,
        ls !! SideDrawerAPI.tokenExpiryKey = Some expiry ->
        parseInt expiry = Fin e ->
        now >= e ->
        SideDrawerAPI.isAuthenticated now ls = false).
Proof.
  split; [reflexivity |]. split; [| split; [| split; [| split]]].
  - intros now. apply isTokenExpired_iff. rewrite bufferTime_value. lia.
  - intros expiresAt. split.
    + apply isTokenExpired_iff. rewrite bufferTime_value. lia.
    + apply not_true_is_false. rewrite isTokenExpired_iff, bufferTime_value. lia.
  - apply isTokenExpired_iff.
  - intros e st expiresAt Hx Hnow. unfold SideDrawerAuth.checkConnection.
    rewrite Hx. apply isTokenExpired_iff in Hnow. rewrite Hnow.
    by rewrite andb_false_r.
  - intros now ls expiry e Hl Hp Hnow. apply not_true_is_false.
    intros (t & x & e' & _ & _ & Hx & Hp' & Hlt)%isAuthenticated_true.
    rewrite Hl in Hx. injection Hx as <-. rewrite Hp in Hp'. injection Hp' as <-. lia.
Qed.

(** The check at the boundary for a token that expires at 1701234567890. *)
Lemma isTokenExpired_boundary_witness :
  SideDrawerAuth.isTokenExpired (1701234567890 - 300000) (JNum (Fin 1701234567890)) = true
  /\ SideDrawerAuth.isTokenExpired (1701234567890 - 301000) (JNum (Fin 1701234567890)) = false
  /\ SideDrawerAPI.isAuthenticated 1701234567890
       (AuthScenario.helperStorage "t1" 1701234567890) = false.
Proof.
  destruct isTokenExpired_boundary as (_ & _ & Hb & _ & _ & Ha).
  destruct (Hb 1701234567890) as [H1 H2].
  split; [exact H1 | split; [exact H2 |]].
  apply (Ha 1701234567890 _ "1701234567890" 1701234567890);
    [vm_compute; reflexivity | vm_compute; reflexivity | lia].
Defined.

(** A stored session carries its access token (the token set of the data
    model: an access token with its expiry). *)
Lemma stored_session_has_token (st : SideDrawerAuth.State) :
  (truthy (SideDrawerAuth.getZohoSession st) = true ->
   truthy (prop (SideDrawerAuth.getZohoSession st) "accessToken") = true) ->
  truthy (SideDrawerAuth.getAccessToken st) = truthy (SideDrawerAuth.getZohoSession st).
Proof.
  unfold SideDrawerAuth.getAccessToken.
  destruct (truthy (SideDrawerAuth.getZohoSession st)); [| done].
  intros H. by apply H.
Qed.

(** The three branches of [checkConnection], for a store in which a
    session, when there is one, carries its access token.  A stored access
    token that is not expired: the status becomes Connected and nothing is
    sent or changed.  No access token, or an expired one, and a refresh
    token: the refresh runs, and exactly one request, the one with
    [grant_type] [refresh_token], is sent to the token endpoint.  No access
    token, or an expired one, and no refresh token: the status becomes
    Disconnected and nothing is sent or changed. *)
Lemma checkConnection_decision_tree (e : SideDrawerAuth.Env) (st : SideDrawerAuth.State) :
  let session := SideDrawerAuth.getZohoSession st in
  (truthy session = true -> truthy (prop session "accessToken") = true) ->
  let stored := truthy (SideDrawerAuth.getAccessToken st) in
  let expired := SideDrawerAuth.isTokenExpired (SideDrawerAuth.now e) (prop session "expiresAt") in
  let refreshToken := SideDrawerAuth.getRefreshToken st in
  let st' := SideDrawerAuth.checkConnection e st in
  (stored = true -> expired = false ->
     st' = SideDrawerAuth.showConnectedStatus st
     /\ SideDrawerAuth.shown st' = SideDrawerAuth.Connected
     /\ SideDrawerAuth.sent st' = SideDrawerAuth.sent st)
  /\ (stored = false \/ expired = true -> truthy refreshToken = true ->
      st' = SideDrawerAuth.refreshAccessToken e st
      /\ SideDrawerAuth.sent st'
         = SideDrawerAuth.refreshRequest e refreshToken :: SideDrawerAuth.sent st
      /\ url (SideDrawerAuth.refreshRequest e refreshToken)
         = SideDrawerAuth.tokenEndpoint (SideDrawerAuth.OAUTH_CONFIG e)
      /\ exists payload,
           prop (init (SideDrawerAuth.refreshRequest e refreshToken)) "body"
           = JStr (stringify_arg payload)
           /\ prop payload "grant_type" = JStr "refresh_token"
           /\ prop payload "refresh_token" = refreshToken)
  /\ (stored = false \/ expired = true -> truthy refreshToken = false ->
      st' = SideDrawerAuth.showDisconnectedStatus st
      /\ SideDrawerAuth.shown st' = SideDrawerAuth.Disconnected
      /\ SideDrawerAuth.sent st' = SideDrawerAuth.sent st).
Proof.
  cbv zeta. intros Hwf. rewrite (stored_session_has_token st Hwf).
  unfold SideDrawerAuth.checkConnection.
  split; [| split].
  - intros -> ->. by repeat split.
  - intros Hv Ht.
    assert (truthy (SideDrawerAuth.getZohoSession st)
            && negb (SideDrawerAuth.isTokenExpired (SideDrawerAuth.now e)
                       (prop (SideDrawerAuth.getZohoSession st) "expiresAt")) = false) as ->.
    { destruct Hv as [-> | ->]; [done | by rewrite andb_false_r]. }
    rewrite Ht. split; [reflexivity |].
    split; [by apply refreshAccessToken_sent |]. split; [reflexivity |].
    eexists. split; [reflexivity |]. by split.
  - intros Hv Ht.
    assert (truthy (SideDrawerAuth.getZohoSession st)
            && negb (SideDrawerAuth.isTokenExpired (SideDrawerAuth.now e)
                       (prop (SideDrawerAuth.getZohoSession st) "expiresAt")) = false) as ->.
    { destruct Hv as [-> | ->]; [done | by rewrite andb_false_r]. }
    rewrite Ht. by repeat split.
Qed.

(** The three branches on concrete stores: a valid session, an expired one
    with a refresh token, and nothing stored. *)
Lemma checkConnection_decision_tree_witness :
  let e := AuthScenario.env 1701234567890 AuthScenario.granting in
  SideDrawerAuth.shown
    (SideDrawerAuth.checkConnection e
       (AuthScenario.loaded (AuthScenario.session "t1" 1701238167890) None))
  = SideDrawerAuth.Connected
  /\ List.length (SideDrawerAuth.sent
       (SideDrawerAuth.checkConnection e
          (AuthScenario.loaded (AuthScenario.session "t1" 1701230000000) (Some "r1")))) = 1%nat
  /\ SideDrawerAuth.shown
       (SideDrawerAuth.checkConnection e (AuthScenario.loaded JNull None))
     = SideDrawerAuth.Disconnected.
Proof.
  cbv zeta. split; [| split].
  - destruct (checkConnection_decision_tree
                (AuthScenario.env 1701234567890 AuthScenario.granting)
                (AuthScenario.loaded (AuthScenario.session "t1" 1701238167890) None)
                (fun _ => eq_refl))
      as [H _].
    by destruct (H eq_refl eq_refl) as (_ & H1 & _).
  - destruct (checkConnection_decision_tree
                (AuthScenario.env 1701234567890 AuthScenario.granting)
                (AuthScenario.loaded (AuthScenario.session "t1" 1701230000000) (Some "r1"))
                (fun _ => eq_refl))
      as (_ & H & _).
    destruct (H (or_intror eq_refl) eq_refl) as (_ & H1 & _). by rewrite H1.
  - destruct (checkConnection_decision_tree
                (AuthScenario.env 1701234567890 AuthScenario.granting)
                (AuthScenario.loaded JNull None)
                (fun H => H))
      as (_ & _ & H).
    by destruct (H (or_introl eq_refl) eq_refl) as (_ & H1 & _).
Defined.

(** Refresh, then use: after a granted refresh the new access token is
    stored and a second check of the connection sends nothing more. *)
Lemma checkConnection_refresh_then_use :
  let e := AuthScenario.env 1701234567890 AuthScenario.granting in
  let st' := SideDrawerAuth.checkConnection e
               (AuthScenario.loaded (AuthScenario.session "t1" 1701230000000) (Some "r1")) in
  SideDrawerAuth.shown st' = SideDrawerAuth.Connected
  /\ SideDrawerAuth.getAccessToken st' = JStr "t2"
  /\ List.length (SideDrawerAuth.sent st') = 1%nat
  /\ SideDrawerAuth.checkConnection e st' = st'.
Proof. vm_compute. repeat split. Qed.

(** C8.  [checkConnection] tests the session object and its expiry, never
    the access token.  With a stored session that has no access token, an
    expiry an hour ahead and a refresh token (the case of an absent access
    token and a present refresh token), the status becomes Connected and no
    request is sent: no refresh is attempted.  Such a session is what the
    refresh itself stores for an answer that carries no access token; and the
    session stored for the error answer of the token endpoint has no expiry
    either ([NaN]), so every later check, at any time and whatever the
    network, shows Connected and sends nothing. *)
Theorem checkConnection_connected_without_access_token :
  let now := 1701234567890 in
  let st := AuthScenario.loaded (AuthScenario.sessionWithoutToken (now + 3600 * 1000))
              (Some "r1") in
  let st' := SideDrawerAuth.checkConnection (AuthScenario.env now AuthScenario.granting) st in
  let expired := AuthScenario.loaded (AuthScenario.session "t1" 1701230000000) (Some "r1") in
  let refused := SideDrawerAuth.refreshAccessToken
                   (AuthScenario.env now AuthScenario.rejecting) expired in
  (truthy (SideDrawerAuth.getAccessToken st) = false
   /\ truthy (SideDrawerAuth.getRefreshToken st) = true
   /\ SideDrawerAuth.shown st' = SideDrawerAuth.Connected
   /\ SideDrawerAuth.sent st' = []
   /\ truthy (SideDrawerAuth.getAccessToken st') = false)
  /\ SideDrawerAuth.getZohoSession
       (SideDrawerAuth.refreshAccessToken (AuthScenario.env now AuthScenario.tokenless) expired)
     = AuthScenario.sessionWithoutToken (now + 3600 * 1000)
  /\ (truthy (SideDrawerAuth.getAccessToken refused) = false
      /\ truthy (SideDrawerAuth.getRefreshToken refused) = true
      /\ forall later network,
           let st2 := SideDrawerAuth.checkConnection (AuthScenario.env later network) refused in
           SideDrawerAuth.shown st2 = SideDrawerAuth.Connected
           /\ SideDrawerAuth.sent st2 = SideDrawerAuth.sent refused
           /\ truthy (SideDrawerAuth.getAccessToken st2) = false).
Proof.
  cbv zeta. split; [vm_compute; by repeat split |]. split; [vm_compute; reflexivity |].
  split; [vm_compute; reflexivity |]. split; [vm_compute; reflexivity |].
  intros later network. by repeat split.
Qed.

(** C1.  The token endpoint answers a refresh with 400 and the error object
    of a revoked refresh token.  The body is parsed and saved as if it were a
    token set: the status becomes Connected, the refresh token stays in local
    storage and the stored session has no access token.  A network failure
    on the same input ends in Disconnected with both halves cleared. *)
Theorem refreshAccessToken_non2xx_shows_connected :
  let st := AuthScenario.loaded (AuthScenario.session "t1" 1701230000000) (Some "r1") in
  let st' := SideDrawerAuth.refreshAccessToken
               (AuthScenario.env 1701234567890 AuthScenario.rejecting) st in
  let down := SideDrawerAuth.refreshAccessToken
                (AuthScenario.env 1701234567890 AuthScenario.offline) st in
  SideDrawerAuth.shown st' = SideDrawerAuth.Connected
  /\ SideDrawerAuth.getRefreshToken st' = JStr "r1"
  /\ truthy (SideDrawerAuth.getZohoSession st') = true
  /\ SideDrawerAuth.getAccessToken st' = JUndefined
  /\ List.length (SideDrawerAuth.sent st') = 1%nat
  /\ SideDrawerAuth.shown down = SideDrawerAuth.Disconnected
  /\ SideDrawerAuth.getRefreshToken down = JNull
  /\ SideDrawerAuth.getZohoSession down = JNull.
Proof. vm_compute. repeat split. Qed.

(** ** The REST helper *)

Lemma assoc_set_member (k k' : string) (v : JValue) (fs : list (string * JValue)) :
  assoc k (set_member k' v fs) = if String.eqb k k' then Some v else assoc k fs.
Proof.
  induction fs as [| [k0 v0] fs IH]; cbn.
  - by destruct (String.eqb k k').
  - destruct (String.eqb_spec k' k0) as [-> | Hne]; cbn.
    + by destruct (String.eqb k k0).
    + rewrite IH. destruct (String.eqb_spec k k0) as [-> | ?]; [| done].
      destruct (String.eqb_spec k0 k'); [congruence | done].
Qed.

(** A member that the second object does not have keeps the value it has in
    the first. *)
Lemma assoc_spread_absent (k : string) (a b : list (string * JValue)) :
  assoc k b = None -> assoc k (spread a b) = assoc k a.
Proof.
  unfold spread. revert a. induction b as [| [k0 v0] b IH]; intros a Hb; [done |].
  cbn in *. destruct (String.eqb_spec k k0) as [-> | Hne]; [done |].
  rewrite (IH _ Hb), assoc_set_member.
  by destruct (String.eqb_spec k k0).
Qed.

Lemma assoc_spread_last (k : string) (v : JValue) (a : list (string * JValue)) :
  assoc k (spread a [(k, v)]) = Some v.
Proof. unfold spread. cbn. rewrite assoc_set_member. by rewrite String.eqb_refl. Qed.

Lemma buildRequest_authorization (token : JValue) (endpoint : string) (options headers : JValue) :
  assoc "Authorization" (members headers) = None ->
  prop (prop (init (SideDrawerAPI.buildRequest token endpoint options headers)) "headers")
       "Authorization"
  = JStr ("Bearer " +:+ to_string token).
Proof.
  intros Hh. unfold SideDrawerAPI.buildRequest. cbn [init prop].
  rewrite assoc_spread_last.
  change (default JUndefined
            (assoc "Authorization"
               (spread (SideDrawerAPI.defaultHeaders token) (members headers)))
          = JStr ("Bearer " +:+ to_string token)).
  by rewrite (assoc_spread_absent _ _ _ Hh).
Qed.

(** C9, as stated, fails: the stored token expired a millisecond ago, so
    [isAuthenticated] is false, and [request] still sends the request, with
    that token, and returns the answer. *)
Lemma request_sends_expired_token :
  let ls := AuthScenario.helperStorage "t1" 1701234567890 in
  let r := SideDrawerAPI.request AuthScenario.serving ls "/me" JUndefined in
  SideDrawerAPI.isAuthenticated 1701234567891 ls = false
  /\ fst r = Normal (JObj [("id", JStr "u1")])
  /\ snd r = [ {| url := "https://user-api-sbx.sidedrawersbx.com/me";
                  init := JObj [("headers", JObj [
                            ("Authorization", JStr "Bearer t1");
                            ("Content-Type", JStr "application/json")])] |} ].
Proof. vm_compute. repeat split. Qed.

(** C9, amended.  [request] is gated on a token being stored, not on its
    expiry.  With no token stored, or an empty one, it throws the
    authentication error and sends nothing.  With a token stored it sends
    exactly one request, and unless the caller's own headers set
    [Authorization] that request carries the stored token as a Bearer
    authorization header; an answer 401 is reported as an expired
    authentication. *)
Theorem request_gated_on_stored_token (net : Network) (ls : gmap string string)
    (endpoint : string) (options : JValue) :
  let token := SideDrawerAPI.getAccessToken ls in
  let r := SideDrawerAPI.request net ls endpoint options in
  (truthy token = false -> r = (Throw SideDrawerAPI.notAuthenticated, []))
  /\ (truthy token = true -> nullish options = false \/ options = JUndefined ->
      assoc "Authorization" (members (prop options "headers")) = None ->
      exists sent,
        snd r = [sent]
        /\ fst r = SideDrawerAPI.handleResponse (net sent)
        /\ prop (prop (init sent) "headers") "Authorization"
           = JStr ("Bearer " +:+ to_string token))
  /\ (forall response, status response = 401 ->
        SideDrawerAPI.handleResponse (Responded response)
        = Throw SideDrawerAPI.authenticationExpired).
Proof.
  cbv zeta. unfold SideDrawerAPI.request. split; [| split].
  - by intros ->.
  - intros -> Ho Hh. cbn [negb].
    assert (Hget : exists o, (match options with JUndefined => JObj [] | _ => options end) = o
                   /\ get o "headers" = Normal (prop options "headers")).
    { destruct Ho as [Ho | ->]; [| by eexists]. exists options.
      split; [by destruct options |]. unfold get.
      by destruct options. }
    destruct Hget as (o & -> & ->).
    eexists. split; [reflexivity |]. split; [reflexivity |].
    by apply buildRequest_authorization.
  - intros response H401. unfold SideDrawerAPI.handleResponse. by rewrite H401.
Qed.

(** With no token nothing is sent; with the token [t1] the request for [/me]
    carries [Bearer t1]. *)
Lemma request_gated_on_stored_token_witness :
  SideDrawerAPI.request AuthScenario.serving ∅ "/me" JUndefined
  = (Throw SideDrawerAPI.notAuthenticated, [])
  /\ exists sent,
       snd (SideDrawerAPI.request AuthScenario.serving
              (AuthScenario.helperStorage "t1" 1701234567890) "/me" JUndefined) = [sent]
       /\ prop (prop (init sent) "headers") "Authorization" = JStr "Bearer t1".
Proof.
  split.
  - by apply (request_gated_on_stored_token AuthScenario.serving ∅ "/me" JUndefined).
  - destruct (request_gated_on_stored_token AuthScenario.serving
                (AuthScenario.helperStorage "t1" 1701234567890) "/me" JUndefined)
      as (_ & H & _).
    destruct (H eq_refl (or_intror eq_refl) eq_refl) as (sent & H1 & _ & H2).
    exists sent. split; [exact H1 | exact H2].
Defined.

(* ===================================================================== *)
(** * Part III.  Further properties of the code                           *)
(* ===================================================================== *)

(** ** Strings: reversal and trimming *)

Lemma append_cons (x : ascii) (a b : string) : String x a +:+ b = String x (a +:+ b).
Proof. reflexivity. Qed.

Lemma append_nil_l (b : string) : "" +:+ b = b.
Proof. reflexivity. Qed.

Lemma append_assoc_string (a b c : string) : (a +:+ b) +:+ c = a +:+ (b +:+ c).
Proof.
  induction a as [| x a IH]; [done |].
  by rewrite !append_cons, IH.
Qed.

Lemma append_empty_r (s : string) : s +:+ "" = s.
Proof. induction s as [| x s IH]; [done |]. by rewrite append_cons, IH. Qed.

Lemma rev_app_spec (s1 s2 : string) : String.rev_app s1 s2 = String.rev s1 +:+ s2.
Proof.
  unfold String.rev. revert s2.
  induction s1 as [| a s1 IH]; intros s2; [done |].
  change (String.rev_app s1 (String a s2) = String.rev_app s1 (String a "") +:+ s2).
  by rewrite (IH (String a s2)), (IH (String a "")), append_assoc_string.
Qed.

Lemma rev_cons (a : ascii) (s : string) :
  String.rev (String a s) = String.rev s +:+ String a "".
Proof.
  change (String.rev_app s (String a "") = String.rev s +:+ String a "").
  apply rev_app_spec.
Qed.

Lemma rev_append (s1 s2 : string) :
  String.rev (s1 +:+ s2) = String.rev s2 +:+ String.rev s1.
Proof.
  induction s1 as [| a s1 IH].
  - by rewrite append_nil_l, append_empty_r.
  - by rewrite append_cons, !rev_cons, IH, append_assoc_string.
Qed.

Lemma rev_involutive_string (s : string) : String.rev (String.rev s) = s.
Proof.
  induction s as [| a s IH]; [done |].
  by rewrite rev_cons, rev_append, IH.
Qed.

Lemma trimStart_head (s : string) :
  match trimStart s with
  | String c _ => is_space c = false
  | EmptyString => True
  end.
Proof.
  induction s as [| c s IH]; cbn; [done |].
  destruct (is_space c) eqn:Hc; [exact IH | by rewrite Hc].
Qed.


Lemma trimStart_suffix (s : string) : exists p, s = p +:+ trimStart s.
Proof.
  induction s as [| c s [p IH]]; cbn.
  - by exists "".
  - destruct (is_space c).
    + exists (String c p). by rewrite append_cons, <- IH.
    + by exists "".
Qed.

Lemma trim_head (s : string) :
  match trim s with
  | String c _ => is_space c = false
  | EmptyString => True
  end.
Proof.
  unfold trim.
  destruct (trimStart_suffix (String.rev (trimStart s))) as [p Hp].
  pose proof (trimStart_head s) as Hu.
  apply (f_equal String.rev) in Hp.
  rewrite rev_involutive_string, rev_append in Hp.
  destruct (String.rev (trimStart (String.rev (trimStart s)))) as [| c r]; [done |].
  rewrite Hp in Hu. exact Hu.
Qed.


Lemma Forall_chars_append (P : ascii -> Prop) (a b : string) :
  Forall P (list_ascii_of_string (a +:+ b))
  <-> Forall P (list_ascii_of_string a) /\ Forall P (list_ascii_of_string b).
Proof.
  induction a as [| x a IH].
  - rewrite append_nil_l. cbn. split; [by split | by intros [_ ?]].
  - rewrite append_cons. cbn. rewrite !List.Forall_cons_iff, IH.
    split; [intros (? & ? & ?) | intros ((? & ?) & ?)]; by repeat split.
Qed.

Lemma Forall_chars_rev (P : ascii -> Prop) (s : string) :
  Forall P (list_ascii_of_string (String.rev s)) <-> Forall P (list_ascii_of_string s).
Proof.
  induction s as [| x s IH]; [done |].
  rewrite rev_cons, Forall_chars_append, IH. cbn.
  rewrite !List.Forall_cons_iff.
  split; [intros (? & ? & _) | intros (? & ?)]; by repeat split.
Qed.

(** [trimStart] removes a prefix of white space, and all of a text of white
    space. *)
Lemma trimStart_split (s : string) :
  exists p, s = p +:+ trimStart s
            /\ Forall (fun c => is_space c = true) (list_ascii_of_string p).
Proof.
  induction s as [| c s (p & IH & Hp)]; cbn.
  - by exists "".
  - destruct (is_space c) eqn:Hc.
    + exists (String c p). rewrite append_cons, <- IH. split; [done |].
      cbn. by apply List.Forall_cons.
    + by exists "".
Qed.

Lemma trimStart_blank (s : string) :
  Forall (fun c => is_space c = true) (list_ascii_of_string s) -> trimStart s = "".
Proof.
  induction s as [| c s IH]; cbn; [done |].
  intros [-> Hs]%List.Forall_cons_iff. by apply IH.
Qed.

(** [trim] removes white space at both ends and nothing else: the text is
    white space, the trimmed text, white space. *)
Lemma trim_split (s : string) :
  exists p q, s = p +:+ trim s +:+ q
              /\ Forall (fun c => is_space c = true) (list_ascii_of_string p)
              /\ Forall (fun c => is_space c = true) (list_ascii_of_string q).
Proof.
  destruct (trimStart_split s) as (p & Hs & Hp).
  destruct (trimStart_split (String.rev (trimStart s))) as (q & Hr & Hq).
  exists p, (String.rev q). split; [| split; [done | by apply Forall_chars_rev]].
  apply (f_equal String.rev) in Hr. rewrite rev_involutive_string, rev_append in Hr.
  unfold trim. by rewrite <- Hr.
Qed.

Lemma trim_last (s : string) :
  match String.rev (trim s) with
  | String c _ => is_space c = false
  | EmptyString => True
  end.
Proof. unfold trim. rewrite rev_involutive_string. apply trimStart_head. Qed.

(** What [trim] leaves is empty exactly for a text of white space. *)
Lemma trim_empty_iff (s : string) :
  trim s = "" <-> Forall (fun c => is_space c = true) (list_ascii_of_string s).
Proof.
  split.
  - intros He. destruct (trim_split s) as (p & q & Hs & Hp & Hq).
    rewrite He, append_nil_l in Hs. rewrite Hs. by apply Forall_chars_append.
  - intros Hs. unfold trim. by rewrite (trimStart_blank s Hs).
Qed.

(** The trimmed text of a text that is not white space only: it begins and
    ends with a character that is not white space. *)
Lemma trim_ends (s : string) :
  trim s <> "" ->
  match trim s with String c _ => is_space c = false | EmptyString => False end
  /\ match String.rev (trim s) with String c _ => is_space c = false | EmptyString => False end.
Proof.
  intros Hne. pose proof (trim_head s) as Hh. pose proof (trim_last s) as Hl.
  destruct (trim s) as [| c t] eqn:Ht; [done |]. split; [done |].
  destruct (String.rev (String c t)) as [| d u] eqn:Hr; [| done].
  apply (f_equal String.rev) in Hr. by rewrite rev_involutive_string in Hr.
Qed.

Lemma truthy_string (s : string) : truthy (JStr s) = negb (String.eqb s "").
Proof. reflexivity. Qed.

(** ** [saveSetupConfig] in embedded mode *)

Section EmbeddedSave.
Context {S : Type}.
Variable b : SetupAPI.Browser.
Variable zoho : SetupAPI.ZohoSDK S.
Hypothesis Hembedded : SetupAPI.isStandaloneMode b = false.

Lemma saveSetupConfig_embedded_eq (config : JValue) (st : SetupAPI.Store S) :
  SetupAPI.saveSetupConfig b zoho config st =
    if negb (SetupAPI.checkUserHasManageOrgPermission b zoho (SetupAPI.localStorage st))
    then (Throw SetupAPI.permissionDenied, st)
    else match SetupAPI.validateRequired config with
         | Throw m => (Throw m, st)
         | Normal fields =>
             let '(r, c') := SetupAPI.writeSetupRecord b zoho config fields (SetupAPI.crm st) in
             (r, SetupAPI.Build_Store (SetupAPI.localStorage st) c')
         end.
Proof. unfold SetupAPI.saveSetupConfig. by rewrite Hembedded. Qed.

End EmbeddedSave.

(** X1.  In embedded mode [saveSetupConfig] never touches local storage, and
    when the permission is missing, a required field fails its check or the
    setup module does not exist, the call throws and the whole store, the
    CRM included, is as it was: nothing is written before the checks pass. *)
Theorem saveSetupConfig_rejects_before_writing {S : Type}
    (b : SetupAPI.Browser) (zoho : SetupAPI.ZohoSDK S)
    (config : JValue) (st : SetupAPI.Store S) :
  SetupAPI.isStandaloneMode b = false ->
  let r := SetupAPI.saveSetupConfig b zoho config st in
  SetupAPI.localStorage (snd r) = SetupAPI.localStorage st
  /\ (SetupAPI.checkUserHasManageOrgPermission b zoho (SetupAPI.localStorage st) = false
      \/ is_throw (SetupAPI.validateRequired config) = true
      \/ SetupAPI.checkSetupModuleExists b zoho (SetupAPI.crm st) = false ->
      is_throw (fst r) = true /\ snd r = st).
Proof.
  intros Hb. cbv zeta. rewrite (saveSetupConfig_embedded_eq b zoho Hb).
  destruct (SetupAPI.checkUserHasManageOrgPermission b zoho _) eqn:Hp; cbn [negb].
  - destruct (SetupAPI.validateRequired config) as [fields | m] eqn:Hv.
    + destruct (SetupAPI.writeSetupRecord b zoho config fields (SetupAPI.crm st))
        as [r c'] eqn:Hw.
      split; [done |]. intros [? | [? | Hm]]; [done | done |].
      unfold SetupAPI.writeSetupRecord in Hw. destruct fields as [[? ?] ?].
      rewrite Hm in Hw. cbn in Hw. injection Hw as <- <-. by destruct st.
    + split; [done |]. by intros _.
  - split; [done |]. by intros _.
Qed.

Lemma saveSetupConfig_rejects_before_writing_witness :
  let b := Scenario.embedded [("admin", "true")] in
  let zoho := Scenario.sdk (Normal Scenario.standardUser) Scenario.noVariables in
  let st := Scenario.emptyStore (Some [Scenario.recordWithClientIdOnly]) in
  let config := JObj [("clientId", JStr "  "); ("environment", JStr "sandbox");
                      ("redirectUri", JStr "https://crm.zoho.com/crm/tab/WebTab13")] in
  SetupAPI.saveSetupConfig b zoho config st = (Throw "Client ID is required", st).
Proof.
  cbv zeta.
  pose proof (saveSetupConfig_rejects_before_writing
                (Scenario.embedded [("admin", "true")])
                (Scenario.sdk (Normal Scenario.standardUser) Scenario.noVariables)
                (JObj [("clientId", JStr "  "); ("environment", JStr "sandbox");
                       ("redirectUri", JStr "https://crm.zoho.com/crm/tab/WebTab13")])
                (Scenario.emptyStore (Some [Scenario.recordWithClientIdOnly]))
                eq_refl) as H.
  cbv zeta in H. destruct H as [_ H].
  destruct (H (or_intror (or_introl eq_refl))) as [_ H2].
  rewrite (surjective_pairing (SetupAPI.saveSetupConfig _ _ _ _)), H2.
  reflexivity.
Defined.

Lemma validateRequired_on_strings (config : JValue) (clientId environment redirectUri : string) :
  nullish config = false ->
  prop config "clientId" = JStr clientId ->
  prop config "environment" = JStr environment ->
  prop config "redirectUri" = JStr redirectUri ->
  SetupAPI.validateRequired config =
    if String.eqb (trim clientId) "" then Throw "Client ID is required"
    else if negb (String.eqb (toLowerCase environment) "sandbox"
                  || String.eqb (toLowerCase environment) "production")
    then Throw SetupAPI.environmentInvalid
    else if String.eqb (trim redirectUri) "" then Throw "Redirect URI is required"
    else Normal (trim clientId, toLowerCase environment, trim redirectUri).
Proof.
  intros Hn Hc He Hr. unfold SetupAPI.validateRequired, get.
  rewrite Hn, He, Hr. cbn [bind]. rewrite Hc, !truthy_string.
  destruct (String.eqb_spec clientId "") as [-> | _]; cbn [negb bind call_string_method].
  - reflexivity.
  - destruct (String.eqb (trim clientId) ""); [reflexivity |].
    destruct (String.eqb_spec environment "") as [-> | _]; cbn [negb bind call_string_method orb].
    + reflexivity.
    + destruct (negb _); [reflexivity |].
      destruct (String.eqb_spec redirectUri "") as [-> | _];
        cbn [negb bind call_string_method]; [reflexivity |].
      by destruct (String.eqb (trim redirectUri) "").
Qed.

(** X2.  The checks of [saveSetupConfig] on a configuration whose three
    required fields are strings.  A client id or a redirect URI is turned
    down exactly when it is white space only (the empty text included), white
    space being TAB, LF, VT, FF, CR, the space and the no-break space; the
    environment is turned down unless its lower-case form is [sandbox] or
    [production].  The first failing check, in the order client id,
    environment, redirect URI, gives the error.  What passes is the
    lower-cased environment, and for the client id and the redirect URI the
    text between the leading and the trailing white space: it begins and
    ends with a character that is not white space. *)
Theorem validateRequired_strings (config : JValue) (clientId environment redirectUri : string) :
  nullish config = false ->
  prop config "clientId" = JStr clientId ->
  prop config "environment" = JStr environment ->
  prop config "redirectUri" = JStr redirectUri ->
  let blank := fun s : string =>
    Forall (fun c => is_space c = true) (list_ascii_of_string s) in
  let known :=
    toLowerCase environment = "sandbox" \/ toLowerCase environment = "production" in
  let core := fun s t : string =>
    (exists p q, s = p +:+ t +:+ q /\ blank p /\ blank q)
    /\ match t with String c _ => is_space c = false | EmptyString => False end
    /\ match String.rev t with String c _ => is_space c = false | EmptyString => False end in
  (blank clientId -> SetupAPI.validateRequired config = Throw "Client ID is required")
  /\ (~ blank clientId -> ~ known ->
      SetupAPI.validateRequired config = Throw SetupAPI.environmentInvalid)
  /\ (~ blank clientId -> known -> blank redirectUri ->
      SetupAPI.validateRequired config = Throw "Redirect URI is required")
  /\ (~ blank clientId -> known -> ~ blank redirectUri ->
      exists id uri,
        SetupAPI.validateRequired config = Normal (id, toLowerCase environment, uri)
        /\ core clientId id /\ core redirectUri uri).
Proof.
  intros Hn Hc He Hr. cbv zeta.
  rewrite (validateRequired_on_strings config _ _ _ Hn Hc He Hr).
  assert (Hknown : String.eqb (toLowerCase environment) "sandbox"
                   || String.eqb (toLowerCase environment) "production" = true
                   <-> toLowerCase environment = "sandbox"
                       \/ toLowerCase environment = "production").
  { rewrite orb_true_iff, !String.eqb_eq. tauto. }
  split; [| split; [| split]].
  - intros Hb. apply trim_empty_iff in Hb. by rewrite Hb.
  - intros Hb Hk. rewrite <- trim_empty_iff in Hb.
    apply String.eqb_neq in Hb. rewrite Hb.
    assert (String.eqb (toLowerCase environment) "sandbox"
            || String.eqb (toLowerCase environment) "production" = false) as ->; [| done].
    apply not_true_is_false. intros E. by apply Hk, Hknown.
  - intros Hb Hk Hu. rewrite <- trim_empty_iff in Hb.
    apply String.eqb_neq in Hb. rewrite Hb.
    apply Hknown in Hk. rewrite Hk. cbn [negb].
    apply trim_empty_iff in Hu. by rewrite Hu.
  - intros Hb Hk Hu. rewrite <- trim_empty_iff in Hb, Hu.
    apply Hknown in Hk. rewrite Hk. cbn [negb].
    pose proof Hb as Hb'. pose proof Hu as Hu'.
    apply String.eqb_neq in Hb'. apply String.eqb_neq in Hu'. rewrite Hb', Hu'.
    exists (trim clientId), (trim redirectUri). split; [done |].
    split; (split; [apply trim_split | by apply trim_ends]).
Qed.

(** A client id that is a no-break space is turned down; an environment in
    capitals passes and is stored in lower case; a redirect URI of blanks is
    turned down. *)
Lemma validateRequired_strings_witness :
  SetupAPI.validateRequired
    (JObj [("clientId", JStr Scenario.nbsp); ("environment", JStr "sandbox");
           ("redirectUri", JStr "https://crm.zoho.com/crm/tab/WebTab13")])
  = Throw "Client ID is required"
  /\ (exists id uri,
        SetupAPI.validateRequired
          (JObj [("clientId", JStr " A "); ("environment", JStr "PRODUCTION");
                 ("redirectUri", JStr "https://crm.zoho.com/crm/tab/WebTab13")])
        = Normal (id, "production", uri))
  /\ SetupAPI.validateRequired
       (JObj [("clientId", JStr "A"); ("environment", JStr "sandbox");
              ("redirectUri", JStr "   ")])
     = Throw "Redirect URI is required".
Proof.
  split; [| split].
  - refine (proj1 (validateRequired_strings
               (JObj [("clientId", JStr Scenario.nbsp); ("environment", JStr "sandbox");
                      ("redirectUri", JStr "https://crm.zoho.com/crm/tab/WebTab13")])
               Scenario.nbsp "sandbox" "https://crm.zoho.com/crm/tab/WebTab13"
               eq_refl eq_refl eq_refl eq_refl) _).
    cbn. repeat constructor.
  - destruct (proj2 (proj2 (proj2 (validateRequired_strings
               (JObj [("clientId", JStr " A "); ("environment", JStr "PRODUCTION");
                      ("redirectUri", JStr "https://crm.zoho.com/crm/tab/WebTab13")])
               " A " "PRODUCTION" "https://crm.zoho.com/crm/tab/WebTab13"
               eq_refl eq_refl eq_refl eq_refl))))
      as (id & uri & H & _).
    + cbn. intros H. apply List.Forall_cons_iff in H as [_ H].
      apply List.Forall_cons_iff in H as [H _]. discriminate H.
    + right. reflexivity.
    + cbn. intros H. apply List.Forall_cons_iff in H as [H _]. discriminate H.
    + exists id, uri. exact H.
  - refine (proj1 (proj2 (proj2 (validateRequired_strings
               (JObj [("clientId", JStr "A"); ("environment", JStr "sandbox");
                      ("redirectUri", JStr "   ")])
               "A" "sandbox" "   " eq_refl eq_refl eq_refl eq_refl))) _ _ _).
    + cbn. intros H. apply List.Forall_cons_iff in H as [H _]. discriminate H.
    + left. reflexivity.
    + cbn. repeat constructor.
Defined.

(** X4.  What [getSetupConfig] returns is either [null] or a configuration
    object in which each of client id, environment, redirect URI, tenant id
    and brand code is [null] or a non-empty (truthy) value, never [undefined]
    or an empty string, and [isActive] is a boolean. *)
Theorem getSetupConfig_normalised {S : Type}
    (b : SetupAPI.Browser) (zoho : SetupAPI.ZohoSDK S) (c : S) :
  let config := SetupAPI.getSetupConfig b zoho c in
  config = JNull
  \/ (truthy config = true
      /\ Forall (fun field => prop config field = JNull \/ truthy (prop config field) = true)
           ["clientId"; "environment"; "redirectUri"; "tenantId"; "brandCode"]
      /\ exists active, prop config "isActive" = JBool active).
Proof.
  cbv zeta. unfold SetupAPI.getSetupConfig.
  destruct (SetupAPI.isStandaloneMode b); [by left |].
  destruct (negb (SetupAPI.checkSetupModuleExists b zoho c)); [by left |].
  destruct (SetupAPI.getRecords zoho 10 c) as [response | m]; cbn [bind]; [| by left].
  destruct (negb (truthy (get_opt response "data")) || _); [by left |].
  set (record := index_opt (get_opt response "data") 0).
  unfold get. destruct (nullish record) eqn:Hn; cbn [bind]; [by left |].
  right. split; [done |]. split.
  - assert (Hor : forall v, or_else v JNull = JNull \/ truthy (or_else v JNull) = true).
    { intros v. unfold or_else. destruct (truthy v) eqn:Hv; [by right | by left]. }
    repeat (apply List.Forall_cons; [cbn; apply Hor |]). apply List.Forall_nil.
  - by eexists.
Qed.

(** X3.  A save that passes the checks writes once, and writes the
    normalised fields.  For a configuration whose client id, environment and
    redirect URI are strings that pass the checks and whose tenant id and
    brand code are each a string, [null] or absent, the record handed to the
    CRM has the trimmed client id, the lower-cased environment, the trimmed
    redirect URI, the trimmed tenant id and brand code ([null] when absent,
    [null] or white space only) and an active flag that is false only for
    [isActive: false]; it goes to [updateRecord] when the module already has
    a record with an id and to [insertRecord] otherwise, and the CRM is left
    as that one call leaves it. *)
Theorem saveSetupConfig_writes_normalised_record {S : Type}
    (b : SetupAPI.Browser) (zoho : SetupAPI.ZohoSDK S)
    (config : JValue) (st : SetupAPI.Store S)
    (clientId environment redirectUri : string) :
  SetupAPI.isStandaloneMode b = false ->
  SetupAPI.checkUserHasManageOrgPermission b zoho (SetupAPI.localStorage st) = true ->
  SetupAPI.checkSetupModuleExists b zoho (SetupAPI.crm st) = true ->
  nullish config = false ->
  prop config "clientId" = JStr clientId ->
  prop config "environment" = JStr environment ->
  prop config "redirectUri" = JStr redirectUri ->
  (nullish (prop config "tenantId") = true \/ exists text, prop config "tenantId" = JStr text) ->
  (nullish (prop config "brandCode") = true \/ exists text, prop config "brandCode" = JStr text) ->
  trim clientId <> "" ->
  toLowerCase environment = "sandbox" \/ toLowerCase environment = "production" ->
  trim redirectUri <> "" ->
  let optional := fun v : JValue =>
    match v with
    | JStr text => if String.eqb (trim text) "" then JNull else JStr (trim text)
    | _ => JNull
    end in
  let setupData := JObj [
    ("Client_Id__c", JStr (trim clientId));
    ("Environment__c", JStr (toLowerCase environment));
    ("Redirect_Uri__c", JStr (trim redirectUri));
    ("Tenant_Id__c", optional (prop config "tenantId"));
    ("Brand_Code__c", optional (prop config "brandCode"));
    ("Is_Active__c", JBool (negb (strict_eq_bool (prop config "isActive") false)))] in
  let existing := SetupAPI.getSetupConfig b zoho (SetupAPI.crm st) in
  let written :=
    if truthy existing && truthy (prop existing "id")
    then SetupAPI.updateRecord zoho (prop existing "id") setupData (SetupAPI.crm st)
    else SetupAPI.insertRecord zoho setupData (SetupAPI.crm st) in
  let r := SetupAPI.saveSetupConfig b zoho config st in
  SetupAPI.crm (snd r) = snd written
  /\ SetupAPI.localStorage (snd r) = SetupAPI.localStorage st
  /\ (is_throw (fst written) = true -> fst r = fst written).
Proof.
  intros Hb Hp Hm Hn Hc He Hr Ht Hbc Hcid Henv Hruri. cbv zeta.
  rewrite (saveSetupConfig_embedded_eq b zoho Hb), Hp. cbn [negb].
  rewrite (validateRequired_on_strings config _ _ _ Hn Hc He Hr).
  destruct (String.eqb_spec (trim clientId) ""); [done |].
  assert (String.eqb (toLowerCase environment) "sandbox"
          || String.eqb (toLowerCase environment) "production" = true) as ->.
  { destruct Henv as [-> | ->]; reflexivity. }
  cbn [negb]. destruct (String.eqb_spec (trim redirectUri) ""); [done |].
  unfold SetupAPI.writeSetupRecord. rewrite Hm. cbn [negb].
  assert (Hopt : forall name v,
            nullish v = true \/ (exists text, v = JStr text) ->
            SetupAPI.trimmed_or_null name v
            = Normal (match v with
                      | JStr text => if String.eqb (trim text) "" then JNull else JStr (trim text)
                      | _ => JNull
                      end)).
  { intros name v [Hv | [text ->]].
    - unfold SetupAPI.trimmed_or_null. rewrite Hv. by destruct v.
    - unfold SetupAPI.trimmed_or_null. cbn. unfold or_else. rewrite truthy_string.
      by destruct (String.eqb (trim text) ""). }
  rewrite (Hopt _ _ Ht), (Hopt _ _ Hbc). cbn [bind].
  unfold SetupAPI.not_false.
  destruct (if truthy _ && truthy _ then _ else _) as [[response | m] c']; cbn.
  - by destruct (negb (truthy (index_opt (get_opt response "data") 0))).
  - done.
Qed.

(** A configuration with no tenant id and a brand code that is a no-break
    space: both are stored as [null], and the client id is stored without the
    white space around it. *)
Lemma saveSetupConfig_writes_normalised_record_witness :
  let b := Scenario.embedded [("admin", "true")] in
  let zoho := Scenario.sdk (Normal Scenario.standardUser) Scenario.noVariables in
  let config := JObj [("clientId", JStr " A "); ("environment", JStr "Production");
                      ("redirectUri", JStr "https://crm.zoho.com/crm/tab/WebTab13 ");
                      ("brandCode", JStr Scenario.nbsp)] in
  SetupAPI.crm (snd (SetupAPI.saveSetupConfig b zoho config (Scenario.emptyStore (Some []))))
  = Some [JObj [
      ("id", JStr "5000000000");
      ("Client_Id__c", JStr "A");
      ("Environment__c", JStr "production");
      ("Redirect_Uri__c", JStr "https://crm.zoho.com/crm/tab/WebTab13");
      ("Tenant_Id__c", JNull);
      ("Brand_Code__c", JNull);
      ("Is_Active__c", JBool true)]].
Proof.
  cbv zeta.
  pose proof (saveSetupConfig_writes_normalised_record
                (Scenario.embedded [("admin", "true")])
                (Scenario.sdk (Normal Scenario.standardUser) Scenario.noVariables)
                (JObj [("clientId", JStr " A "); ("environment", JStr "Production");
                       ("redirectUri", JStr "https://crm.zoho.com/crm/tab/WebTab13 ");
                       ("brandCode", JStr Scenario.nbsp)])
                (Scenario.emptyStore (Some []))
                " A " "Production" "https://crm.zoho.com/crm/tab/WebTab13 "
                eq_refl eq_refl eq_refl eq_refl eq_refl eq_refl eq_refl
                (or_introl eq_refl) (or_intror (ex_intro _ Scenario.nbsp eq_refl))) as H.
  cbv zeta in H.
  destruct H as [H _]; [vm_compute; discriminate | right; reflexivity
                       | vm_compute; discriminate |].
  rewrite H. reflexivity.
Defined.

(** ** [deleteSetupConfig] *)

(** X5.  In standalone mode [deleteSetupConfig] returns [true] for every
    user, removes the saved configuration from local storage and touches
    nothing else; after a save followed by a delete the local storage is the
    one before the save without the configuration key, and the local-storage
    step of [getCredentials] finds nothing. *)
Theorem deleteSetupConfig_standalone_undoes_save {S : Type}
    (b : SetupAPI.Browser) (zoho : SetupAPI.ZohoSDK S)
    (deleteRecord : JValue -> S -> Completion JValue * S)
    (config : JValue) (st : SetupAPI.Store S) :
  SetupAPI.isStandaloneMode b = true ->
  let saved := snd (SetupAPI.saveSetupConfig b zoho config st) in
  let r := SetupAPIDelete.deleteSetupConfig b zoho deleteRecord saved in
  fst r = Normal true
  /\ SetupAPI.localStorage (snd r) = delete "sd_widget_setup_config" (SetupAPI.localStorage st)
  /\ SetupAPI.crm (snd r) = SetupAPI.crm st
  /\ SetupAPI.localStorageStep (SetupAPI.localStorage (snd r)) = None.
Proof.
  intros Hb. cbv zeta. unfold SetupAPIDelete.deleteSetupConfig. rewrite Hb.
  rewrite (saveSetupConfig_standalone_eq b zoho Hb). cbv zeta.
  cbn [fst snd SetupAPI.localStorage SetupAPI.crm].
  assert (Hd : delete "sd_widget_setup_config"
                 (SetupAPI.localStorage
                    (if SetupAPI.storageAccepts b "sd_widget_setup_config" (stringify_arg config)
                     then (Normal config,
                           SetupAPI.Build_Store
                             (<["sd_widget_setup_config" := stringify_arg config]>
                                (SetupAPI.localStorage st)) (SetupAPI.crm st))
                     else (Throw "Failed to save configuration in standalone mode", st)).2)
               = delete "sd_widget_setup_config" (SetupAPI.localStorage st)).
  { destruct (SetupAPI.storageAccepts b _ _); cbn; [apply delete_insert_eq | done]. }
  rewrite Hd. split; [done |]. split; [done |]. split.
  - by destruct (SetupAPI.storageAccepts b _ _).
  - unfold SetupAPI.localStorageStep, getItem. by rewrite lookup_delete_eq.
Qed.

Lemma deleteSetupConfig_standalone_undoes_save_witness :
  let r := SetupAPIDelete.deleteSetupConfig Scenario.standalone
             (Scenario.sdk (Normal Scenario.standardUser) Scenario.noVariables)
             (fun _ c => (Throw "not reached", c))
             (snd (SetupAPI.saveSetupConfig Scenario.standalone
                     (Scenario.sdk (Normal Scenario.standardUser) Scenario.noVariables)
                     Scenario.completeConfig (Scenario.emptyStore None))) in
  fst r = Normal true
  /\ SetupAPI.localStorage (snd r) !! "sd_widget_setup_config" = None.
Proof.
  cbv zeta.
  destruct (deleteSetupConfig_standalone_undoes_save Scenario.standalone
              (Scenario.sdk (Normal Scenario.standardUser) Scenario.noVariables)
              (fun _ c => (Throw "not reached", c))
              Scenario.completeConfig (Scenario.emptyStore None) eq_refl)
    as (H1 & H2 & _).
  split; [exact H1 |]. rewrite H2. apply lookup_delete_eq.
Defined.

(** X6.  In embedded mode [deleteSetupConfig] is gated like the save: without
    the permission it throws its permission error and leaves the store as it
    was.  With the permission and no record that has an id it returns
    [false] without calling [deleteRecord]; with such a record it calls
    [deleteRecord] once on that id, leaves the CRM as that call leaves it,
    returns [true] when the call completes and throws what the call throws.
    Local storage is never touched. *)
Theorem deleteSetupConfig_embedded {S : Type}
    (b : SetupAPI.Browser) (zoho : SetupAPI.ZohoSDK S)
    (deleteRecord : JValue -> S -> Completion JValue * S)
    (st : SetupAPI.Store S) :
  SetupAPI.isStandaloneMode b = false ->
  let existing := SetupAPI.getSetupConfig b zoho (SetupAPI.crm st) in
  let hasRecord := truthy existing && truthy (prop existing "id") in
  let r := SetupAPIDelete.deleteSetupConfig b zoho deleteRecord st in
  SetupAPI.localStorage (snd r) = SetupAPI.localStorage st
  /\ (SetupAPI.checkUserHasManageOrgPermission b zoho (SetupAPI.localStorage st) = false ->
      r = (Throw SetupAPIDelete.deletePermissionDenied, st))
  /\ (SetupAPI.checkUserHasManageOrgPermission b zoho (SetupAPI.localStorage st) = true ->
      (hasRecord = false -> r = (Normal false, st))
      /\ (hasRecord = true ->
          let d := deleteRecord (prop existing "id") (SetupAPI.crm st) in
          SetupAPI.crm (snd r) = snd d
          /\ fst r = match fst d with Normal _ => Normal true | Throw m => Throw m end)).
Proof.
  intros Hb. cbv zeta. unfold SetupAPIDelete.deleteSetupConfig. rewrite Hb.
  destruct (SetupAPI.checkUserHasManageOrgPermission b zoho _); cbn [negb].
  - destruct (truthy _ && truthy _).
    + destruct (deleteRecord _ _) as [[v | m] c']; cbn; by repeat split.
    + by repeat split.
  - by repeat split.
Qed.

Lemma deleteSetupConfig_embedded_witness :
  let st := Scenario.emptyStore (Some [Scenario.recordWithClientIdOnly]) in
  SetupAPIDelete.deleteSetupConfig (Scenario.embedded [])
    (Scenario.sdk (Normal Scenario.standardUser) Scenario.noVariables)
    (fun _ _ => (Normal JNull, Some [])) st
  = (Throw SetupAPIDelete.deletePermissionDenied, st).
Proof.
  cbv zeta.
  destruct (deleteSetupConfig_embedded (Scenario.embedded [])
              (Scenario.sdk (Normal Scenario.standardUser) Scenario.noVariables)
              (fun _ _ => (Normal JNull, Some []))
              (Scenario.emptyStore (Some [Scenario.recordWithClientIdOnly])) eq_refl)
    as (_ & H & _).
  apply H. vm_compute. reflexivity.
Defined.

(** ** The setup form *)




(** X8.  In standalone mode the setup form saves for every user: with the
    API loaded and a form that passes its checks, [save] shows the success
    message and local storage holds the JSON text of the form's
    configuration when the storage takes the write (the second write the form
    makes itself changes nothing), and shows the standalone error and leaves
    the store alone when it does not. *)
Theorem save_standalone {S : Type}
    (b : SetupAPI.Browser) (zoho : SetupAPI.ZohoSDK S)
    (f : SetupModal.Form) (st : SetupAPI.Store S) :
  SetupAPI.isStandaloneMode b = true ->
  trim (SetupModal.clientIdInput f) <> "" ->
  trim (SetupModal.redirectUriInput f) <> "" ->
  SetupModal.environmentInput f = "sandbox" \/ SetupModal.environmentInput f = "production" ->
  let text := stringify_arg (SetupModal.formConfig f) in
  SetupModal.save true b zoho f st
  = if SetupAPI.storageAccepts b "sd_widget_setup_config" text
    then (SetupModal.SuccessMessage SetupModal.savedMessage,
          SetupAPI.Build_Store (<["sd_widget_setup_config" := text]> (SetupAPI.localStorage st))
            (SetupAPI.crm st))
    else (SetupModal.ErrorMessage "Failed to save configuration in standalone mode", st).
Proof.
  intros Hb Hc Hr He. cbv zeta. unfold SetupModal.save, SetupModal.checkPermission.
  assert (Hi : negb (SetupAPI.inIframe b) = true) by exact Hb.
  rewrite Hi. cbn [negb]. rewrite !truthy_string.
  destruct (String.eqb_spec (trim (SetupModal.clientIdInput f)) ""); [done |].
  destruct (String.eqb_spec (trim (SetupModal.redirectUriInput f)) ""); [done |].
  cbn [negb].
  assert (String.eqb (SetupModal.environmentInput f) "sandbox"
          || String.eqb (SetupModal.environmentInput f) "production" = true) as ->.
  { by destruct He as [-> | ->]. }
  cbn [negb].
  rewrite (saveSetupConfig_standalone_eq b zoho Hb). cbv zeta.
  destruct (SetupAPI.storageAccepts b _ _) eqn:Ha; [| done].
  cbn [andb SetupAPI.localStorage SetupAPI.crm].
  by rewrite insert_insert_eq.
Qed.

Lemma save_standalone_witness :
  let f := {| SetupModal.clientIdInput := "A";
              SetupModal.environmentInput := "sandbox";
              SetupModal.redirectUriInput := "https://127.0.0.1:5001/app/widget.html";
              SetupModal.tenantIdInput := " T1 ";
              SetupModal.brandCodeInput := "" |} in
  let r := SetupModal.save true Scenario.standalone
             (Scenario.sdk (Normal Scenario.standardUser) Scenario.noVariables)
             f (Scenario.emptyStore None) in
  fst r = SetupModal.SuccessMessage SetupModal.savedMessage
  /\ SetupAPI.localStorageStep (SetupAPI.localStorage (snd r))
     = Some (JObj [("clientId", JStr "A"); ("environment", JStr "sandbox");
                   ("redirectUri", JStr "https://127.0.0.1:5001/app/widget.html");
                   ("tenantId", JStr "T1"); ("brandCode", JNull);
                   ("source", JStr "localStorage")]).
Proof.
  cbv zeta.
  rewrite (save_standalone Scenario.standalone
             (Scenario.sdk (Normal Scenario.standardUser) Scenario.noVariables)
             {| SetupModal.clientIdInput := "A";
                SetupModal.environmentInput := "sandbox";
                SetupModal.redirectUriInput := "https://127.0.0.1:5001/app/widget.html";
                SetupModal.tenantIdInput := " T1 ";
                SetupModal.brandCodeInput := "" |}
             (Scenario.emptyStore None) eq_refl);
    [| vm_compute; discriminate | vm_compute; discriminate | by left].
  cbv zeta. split; [reflexivity |].
  unfold SetupAPI.localStorageStep, getItem.
  cbn [Scenario.standalone SetupAPI.storageAccepts snd SetupAPI.localStorage].
  rewrite lookup_insert_eq. vm_compute. reflexivity.
Defined.

(** X9.  A form that fails a check of the setup form is turned down on the
    form: [save] shows an error and the store is as it was, whoever the user
    is and whatever the mode, so neither [saveSetupConfig] nor the storage is
    reached.  With the permission granted the error is that of the first
    failing check, in the order client id, redirect URI, environment. *)
Theorem save_rejects_on_the_form {S : Type}
    (apiLoaded : bool) (b : SetupAPI.Browser) (zoho : SetupAPI.ZohoSDK S)
    (f : SetupModal.Form) (st : SetupAPI.Store S) :
  let clientId := trim (SetupModal.clientIdInput f) in
  let redirectUri := trim (SetupModal.redirectUriInput f) in
  let environment := SetupModal.environmentInput f in
  let knownEnvironment := String.eqb environment "sandbox" || String.eqb environment "production" in
  clientId = "" \/ redirectUri = "" \/ knownEnvironment = false ->
  snd (SetupModal.save apiLoaded b zoho f st) = st
  /\ (SetupModal.checkPermission apiLoaded b zoho (SetupAPI.localStorage st) = false ->
      fst (SetupModal.save apiLoaded b zoho f st)
      = SetupModal.ErrorMessage SetupAPI.permissionDenied)
  /\ (SetupModal.checkPermission apiLoaded b zoho (SetupAPI.localStorage st) = true ->
      fst (SetupModal.save apiLoaded b zoho f st)
      = SetupModal.ErrorMessage
          (if String.eqb clientId "" then "Client ID is required"
           else if String.eqb redirectUri "" then "Redirect URI is required"
           else SetupAPI.environmentInvalid)).
Proof.
  cbv zeta. intros Hinvalid. unfold SetupModal.save.
  destruct (SetupModal.checkPermission apiLoaded b zoho _); cbn [negb]; [| by repeat split].
  rewrite !truthy_string.
  destruct (String.eqb_spec (trim (SetupModal.clientIdInput f)) "") as [Hc | Hc];
    cbn [negb]; [by repeat split |].
  destruct (String.eqb_spec (trim (SetupModal.redirectUriInput f)) "") as [Hr | Hr];
    cbn [negb]; [by repeat split |].
  destruct Hinvalid as [? | [? | ->]]; [done | done |]. by repeat split.
Qed.

Lemma save_rejects_on_the_form_witness :
  let f := {| SetupModal.clientIdInput := "A";
              SetupModal.environmentInput := "Production";
              SetupModal.redirectUriInput := "   ";
              SetupModal.tenantIdInput := "";
              SetupModal.brandCodeInput := "" |} in
  let st := Scenario.emptyStore (Some []) in
  SetupModal.save true (Scenario.embedded [("admin", "true")])
    (Scenario.sdk (Normal Scenario.standardUser) Scenario.noVariables) f st
  = (SetupModal.ErrorMessage "Redirect URI is required", st).
Proof.
  cbv zeta.
  destruct (save_rejects_on_the_form true (Scenario.embedded [("admin", "true")])
              (Scenario.sdk (Normal Scenario.standardUser) Scenario.noVariables)
              {| SetupModal.clientIdInput := "A";
                 SetupModal.environmentInput := "Production";
                 SetupModal.redirectUriInput := "   ";
                 SetupModal.tenantIdInput := "";
                 SetupModal.brandCodeInput := "" |}
              (Scenario.emptyStore (Some [])) (or_intror (or_introl eq_refl)))
    as (H1 & _ & H2).
  rewrite (surjective_pairing (SetupModal.save _ _ _ _ _)), H1, (H2 eq_refl).
  reflexivity.
Defined.

(** ** The REST helper: answers, addresses and payloads *)

(** X10.  [request] completes with data only for an answer in the 200 range:
    whenever it returns a value, a token was stored, exactly one request
    was sent, the answer to it had a status from 200 to 299 and the value is
    the JSON body of that answer.  An error answer is never returned as
    data. *)
Theorem request_returns_only_2xx_bodies (net : Network) (ls : gmap string string)
    (endpoint : string) (options v : JValue) :
  fst (SideDrawerAPI.request net ls endpoint options) = Normal v ->
  truthy (SideDrawerAPI.getAccessToken ls) = true
  /\ exists sent response,
       snd (SideDrawerAPI.request net ls endpoint options) = [sent]
       /\ net sent = Responded response
       /\ 200 <= status response <= 299
       /\ json response = Normal v.
Proof.
  unfold SideDrawerAPI.request.
  destruct (truthy (SideDrawerAPI.getAccessToken ls)); cbn [negb fst snd]; [| done].
  destruct (get _ "headers") as [headers | m]; cbn [fst snd]; [| done].
  intros H. split; [done |]. eexists. unfold SideDrawerAPI.handleResponse in H.
  destruct (net _) as [response | m] eqn:Hn; [| done].
  exists response. split; [reflexivity |]. split; [exact Hn |].
  destruct (status response =? 401); [done |].
  unfold ok in H. destruct (200 <=? status response) eqn:H1; cbn in H.
  - destruct (status response <=? 299) eqn:H2; cbn in H.
    + split; [lia | done].
    + destruct (get _ "message"); cbn in H; discriminate.
  - destruct (get _ "message"); cbn in H; discriminate.
Qed.

Lemma request_returns_only_2xx_bodies_witness :
  truthy (SideDrawerAPI.getAccessToken (AuthScenario.helperStorage "t1" 1701234567890)) = true
  /\ exists sent response,
       snd (SideDrawerAPI.request AuthScenario.serving
              (AuthScenario.helperStorage "t1" 1701234567890) "/me" JUndefined) = [sent]
       /\ AuthScenario.serving sent = Responded response
       /\ 200 <= status response <= 299
       /\ json response = Normal (JObj [("id", JStr "u1")]).
Proof.
  apply (request_returns_only_2xx_bodies AuthScenario.serving
           (AuthScenario.helperStorage "t1" 1701234567890) "/me" JUndefined).
  vm_compute. reflexivity.
Defined.

(** X11.  The error of [request] for an answer outside the 200 range other
    than 401: the [message] of the JSON body when the body has a non-empty
    one, and [API error: ] followed by the status when the body is not JSON
    or is an object without a message. *)
Theorem handleResponse_error_message (response : Response) :
  ok response = false ->
  status response <> 401 ->
  (forall body message,
     json response = Normal body -> prop body "message" = JStr message -> message <> "" ->
     nullish body = false ->
     SideDrawerAPI.handleResponse (Responded response) = Throw message)
  /\ (is_throw (json response) = true
      \/ (exists body, json response = Normal body /\ nullish body = false
                        /\ truthy (prop body "message") = false) ->
      SideDrawerAPI.handleResponse (Responded response)
      = Throw ("API error: " +:+ pretty (status response))).
Proof.
  intros Hok H401. unfold SideDrawerAPI.handleResponse.
  destruct (Z.eqb_spec (status response) 401); [done |]. rewrite Hok. cbn [negb].
  split.
  - intros body message -> Hm Hne Hn. unfold get. rewrite Hn. cbn [bind].
    rewrite Hm. unfold or_else. rewrite truthy_string.
    by destruct (String.eqb_spec message "").
  - intros [Ht | (body & -> & Hn & Hm)].
    + by destruct (json response).
    + unfold get. rewrite Hn. cbn [bind]. unfold or_else. by rewrite Hm.
Qed.

Lemma handleResponse_error_message_witness :
  SideDrawerAPI.handleResponse
    (Responded {| status := 404; json := Normal (JObj [("message", JStr "Document not found")]) |})
  = Throw "Document not found"
  /\ SideDrawerAPI.handleResponse
       (Responded {| status := 502; json := Throw "SyntaxError: unexpected token in JSON" |})
     = Throw "API error: 502".
Proof.
  split.
  - destruct (handleResponse_error_message
                {| status := 404; json := Normal (JObj [("message", JStr "Document not found")]) |}
                eq_refl) as [H _]; [discriminate |].
    apply (H (JObj [("message", JStr "Document not found")]) "Document not found");
      [reflexivity | reflexivity | discriminate | reflexivity].
  - destruct (handleResponse_error_message
                {| status := 502; json := Throw "SyntaxError: unexpected token in JSON" |}
                eq_refl) as [_ H]; [discriminate |].
    rewrite H; [reflexivity | by left].
Defined.

Lemma request_relative_url (net : Network) (ls : gmap string string)
    (endpoint : string) (options : JValue) (sent : Request) :
  startsWith endpoint "http" = false ->
  In sent (snd (SideDrawerAPI.request net ls endpoint options)) ->
  url sent = SideDrawerAPI.baseURL +:+ endpoint.
Proof.
  intros Hrel. unfold SideDrawerAPI.request.
  destruct (truthy _); cbn [negb snd]; [| done].
  destruct (get _ "headers"); cbn [snd]; [| done].
  intros [<- | []]. unfold SideDrawerAPI.buildRequest. cbn [url]. by rewrite Hrel.
Qed.

(** X12.  The methods that name a document or a client build their address
    from a fixed path and the identifier, so whatever the identifier is (a
    full URL included) every request they send goes to the API host: its URL
    is the base URL followed by the path.  [request] itself sends the token
    to whatever address it is given when that starts with [http]. *)
Theorem wrappers_stay_on_the_api_host (net : Network) (ls : gmap string string)
    (id data : JValue) (sent : Request) :
  (In sent (snd (Wrappers.getDocument net ls id)) ->
     url sent = SideDrawerAPI.baseURL +:+ "/documents/" +:+ to_string id)
  /\ (In sent (snd (Wrappers.shareDocument net ls id data)) ->
     url sent = SideDrawerAPI.baseURL +:+ "/documents/" +:+ to_string id +:+ "/share")
  /\ (In sent (snd (Wrappers.getClient net ls id)) ->
     url sent = SideDrawerAPI.baseURL +:+ "/clients/" +:+ to_string id)
  /\ (In sent (snd (Wrappers.updateClient net ls id data)) ->
     url sent = SideDrawerAPI.baseURL +:+ "/clients/" +:+ to_string id)
  /\ (In sent (snd (Wrappers.createClient net ls data)) ->
     url sent = SideDrawerAPI.baseURL +:+ "/clients")
  /\ (forall address options,
        startsWith address "http" = true ->
        In sent (snd (SideDrawerAPI.request net ls address options)) ->
        url sent = address).
Proof.
  split; [| split; [| split; [| split; [| split]]]];
    try (intros H; eapply request_relative_url in H; [exact H | reflexivity]).
  intros address options Habs. unfold SideDrawerAPI.request.
  destruct (truthy _); cbn [negb snd]; [| done].
  destruct (get _ "headers"); cbn [snd]; [| done].
  intros [<- | []]. unfold SideDrawerAPI.buildRequest. cbn [url]. by rewrite Habs.
Qed.

Lemma wrappers_stay_on_the_api_host_witness :
  forallb (fun sent =>
      String.eqb (url sent)
        "https://user-api-sbx.sidedrawersbx.com/documents/https://example.org/x")
    (snd (Wrappers.getDocument AuthScenario.serving
            (AuthScenario.helperStorage "t1" 1701234567890)
            (JStr "https://example.org/x")))
  = true
  /\ List.length (snd (Wrappers.getDocument AuthScenario.serving
                         (AuthScenario.helperStorage "t1" 1701234567890)
                         (JStr "https://example.org/x"))) = 1%nat.
Proof.
  split; [| vm_compute; reflexivity].
  apply forallb_forall. intros sent Hin.
  destruct (wrappers_stay_on_the_api_host AuthScenario.serving
              (AuthScenario.helperStorage "t1" 1701234567890)
              (JStr "https://example.org/x") JNull sent) as [H _].
  rewrite (H Hin). reflexivity.
Defined.







(** ** Numbers printed and read back *)










(** ** The session store *)

(** X15.  [saveTokens] on an answer that is an object: the session holds the
    answer's access token with the expiry [now + expires_in * 1000]; a
    refresh token in the answer replaces the stored one, and when the answer
    has none the stored refresh token stays; the status shown and the
    requests sent are not touched.  The call throws only when the storage
    refuses the new refresh token. *)
Theorem saveTokens_stores (e : SideDrawerAuth.Env) (tokenData : JValue)
    (st : SideDrawerAuth.State) :
  nullish tokenData = false ->
  let refresh := prop tokenData "refresh_token" in
  let accepted :=
    SideDrawerAuth.storageAccepts e SideDrawerAuth.refreshTokenKey (to_string refresh) in
  (truthy refresh = true -> accepted = false ->
     is_throw (SideDrawerAuth.saveTokens e tokenData st) = true)
  /\ (truthy refresh = false \/ accepted = true ->
      exists st',
        SideDrawerAuth.saveTokens e tokenData st = Normal st'
        /\ SideDrawerAuth.getAccessToken st' = prop tokenData "access_token"
        /\ prop (SideDrawerAuth.getZohoSession st') "expiresAt"
           = JNum (num_add (Fin (SideDrawerAuth.now e))
                     (num_mul (to_num (prop tokenData "expires_in")) (Fin 1000)))
        /\ SideDrawerAuth.getRefreshToken st'
           = (if truthy refresh then JStr (to_string refresh)
              else SideDrawerAuth.getRefreshToken st)
        /\ SideDrawerAuth.shown st' = SideDrawerAuth.shown st
        /\ SideDrawerAuth.sent st' = SideDrawerAuth.sent st).
Proof.
  intros Hn. cbv zeta. unfold SideDrawerAuth.saveTokens, get. rewrite Hn. cbn [bind].
  destruct (truthy (prop tokenData "refresh_token")) eqn:Ht.
  - destruct (SideDrawerAuth.storageAccepts e _ _) eqn:Ha.
    + split; [done |]. intros _. eexists. split; [reflexivity |].
      unfold SideDrawerAuth.getRefreshToken, getItem. cbn.
      by rewrite lookup_insert_eq.
    + split; [done |]. by intros [? | ?].
  - split; [done |]. intros _. eexists. split; [reflexivity |]. by cbn.
Qed.

Lemma saveTokens_stores_witness :
  exists st',
    SideDrawerAuth.saveTokens (AuthScenario.env 1701234567890 AuthScenario.granting)
      (JObj [("access_token", JStr "t2"); ("expires_in", JNum (Fin 3600))])
      (AuthScenario.loaded JNull (Some "r1")) = Normal st'
    /\ SideDrawerAuth.getAccessToken st' = JStr "t2"
    /\ prop (SideDrawerAuth.getZohoSession st') "expiresAt" = JNum (Fin 1701238167890)
    /\ SideDrawerAuth.getRefreshToken st' = JStr "r1".
Proof.
  destruct (saveTokens_stores (AuthScenario.env 1701234567890 AuthScenario.granting)
              (JObj [("access_token", JStr "t2"); ("expires_in", JNum (Fin 3600))])
              (AuthScenario.loaded JNull (Some "r1")) eq_refl) as [_ H].
  destruct (H (or_introl eq_refl)) as (st' & H1 & H2 & H3 & H4 & _).
  exists st'. split; [exact H1 |]. split; [exact H2 |]. split; [exact H3 |].
  rewrite H4. vm_compute. reflexivity.
Defined.

(** X16.  How long a refreshed session lasts.  Take a refresh whose answer
    is an object with an integer [expires_in], whatever else it holds.  When
    the answer carries a new refresh token and the storage refuses it, the
    refresh ends in Disconnected with both halves cleared.  Otherwise the
    status is Connected and the stored refresh token is the new one when the
    answer carries one and the old one when it does not; a later
    [checkConnection] keeps the session, sending nothing, exactly while its
    time is before [now + expires_in * 1000 - bufferTime], and from then on
    it goes back to the stored refresh token: it sends one request with that
    token (or nothing, when what was stored for it is the empty text).  A
    token granted for 300 seconds or less is therefore expired the moment it
    is stored. *)
Theorem refreshed_session_window (e : SideDrawerAuth.Env) (st : SideDrawerAuth.State)
    (response : Response) (tokenData : JValue) (lifetime : Z) :
  truthy (SideDrawerAuth.getRefreshToken st) = true ->
  SideDrawerAuth.network e
    (SideDrawerAuth.refreshRequest e (SideDrawerAuth.getRefreshToken st)) = Responded response ->
  json response = Normal tokenData ->
  nullish tokenData = false ->
  prop tokenData "expires_in" = JNum (Fin lifetime) ->
  let rotated := prop tokenData "refresh_token" in
  let accepted :=
    SideDrawerAuth.storageAccepts e SideDrawerAuth.refreshTokenKey (to_string rotated) in
  let st' := SideDrawerAuth.refreshAccessToken e st in
  let expiry := SideDrawerAuth.now e + lifetime * 1000 in
  (truthy rotated = true -> accepted = false ->
     SideDrawerAuth.shown st' = SideDrawerAuth.Disconnected
     /\ SideDrawerAuth.getZohoSession st' = JNull
     /\ SideDrawerAuth.getRefreshToken st' = JNull)
  /\ (truthy rotated = false \/ accepted = true ->
      SideDrawerAuth.shown st' = SideDrawerAuth.Connected
      /\ SideDrawerAuth.getAccessToken st' = prop tokenData "access_token"
      /\ SideDrawerAuth.getRefreshToken st'
         = (if truthy rotated then JStr (to_string rotated)
            else SideDrawerAuth.getRefreshToken st)
      /\ (forall e',
            (SideDrawerAuth.now e' < expiry - SideDrawerAuth.bufferTime ->
               SideDrawerAuth.checkConnection e' st' = st')
            /\ (SideDrawerAuth.now e' >= expiry - SideDrawerAuth.bufferTime ->
               SideDrawerAuth.checkConnection e' st' = SideDrawerAuth.refreshAccessToken e' st'
               /\ SideDrawerAuth.sent (SideDrawerAuth.checkConnection e' st')
                  = if truthy (SideDrawerAuth.getRefreshToken st')
                    then SideDrawerAuth.refreshRequest e' (SideDrawerAuth.getRefreshToken st')
                         :: SideDrawerAuth.sent st'
                    else SideDrawerAuth.sent st'))
      /\ (lifetime <= 300 ->
          SideDrawerAuth.isTokenExpired (SideDrawerAuth.now e)
            (prop (SideDrawerAuth.getZohoSession st') "expiresAt") = true)).
Proof.
  intros Ht Hn Hj Hnull Hx. cbv zeta.
  set (request := SideDrawerAuth.refreshRequest e (SideDrawerAuth.getRefreshToken st)).
  set (session := JObj [("accessToken", prop tokenData "access_token");
                        ("expiresAt", JNum (Fin (SideDrawerAuth.now e + lifetime * 1000)));
                        ("tokenType", JStr "Bearer")]).
  assert (Hsave : SideDrawerAuth.saveTokens e tokenData (SideDrawerAuth.record_request request st)
                  = let st1 := SideDrawerAuth.setZohoSession session
                                 (SideDrawerAuth.record_request request st) in
                    if truthy (prop tokenData "refresh_token") then
                      if SideDrawerAuth.storageAccepts e SideDrawerAuth.refreshTokenKey
                           (to_string (prop tokenData "refresh_token"))
                      then Normal
                             {| SideDrawerAuth.sdSession := SideDrawerAuth.sdSession st1;
                                SideDrawerAuth.localStorage :=
                                  <[SideDrawerAuth.refreshTokenKey :=
                                      to_string (prop tokenData "refresh_token")]>
                                    (SideDrawerAuth.localStorage st1);
                                SideDrawerAuth.shown := SideDrawerAuth.shown st1;
                                SideDrawerAuth.sent := SideDrawerAuth.sent st1 |}
                      else Throw "QuotaExceededError"
                    else Normal st1).
  { unfold SideDrawerAuth.saveTokens, get. by rewrite Hnull, Hx. }
  assert (Heq : SideDrawerAuth.refreshAccessToken e st
                = match SideDrawerAuth.saveTokens e tokenData
                          (SideDrawerAuth.record_request request st) with
                  | Normal st2 => SideDrawerAuth.showConnectedStatus st2
                  | Throw _ =>
                      SideDrawerAuth.disconnect (SideDrawerAuth.record_request request st)
                  end).
  { unfold SideDrawerAuth.refreshAccessToken. rewrite Ht. cbn [negb]. cbv zeta.
    by rewrite Hn, Hj. }
  rewrite Heq, Hsave. clear Heq Hsave. cbv zeta.
  destruct (truthy (prop tokenData "refresh_token")) eqn:Hr;
    [destruct (SideDrawerAuth.storageAccepts e _ _) eqn:Ha |].
  - split; [done |]. intros _.
    set (st' := SideDrawerAuth.showConnectedStatus _).
    assert (Hrt : SideDrawerAuth.getRefreshToken st'
                  = JStr (to_string (prop tokenData "refresh_token"))).
    { unfold SideDrawerAuth.getRefreshToken, getItem. cbn. by rewrite lookup_insert_eq. }
    assert (Hexp : forall t,
              SideDrawerAuth.isTokenExpired t
                (prop (SideDrawerAuth.getZohoSession st') "expiresAt") = true
              <-> t >= SideDrawerAuth.now e + lifetime * 1000 - SideDrawerAuth.bufferTime).
    { intros t. apply isTokenExpired_iff. }
    split; [done |]. split; [done |]. split; [exact Hrt |]. split.
    + intros e'. split.
      * intros Hlt. unfold SideDrawerAuth.checkConnection.
        assert (SideDrawerAuth.isTokenExpired (SideDrawerAuth.now e')
                  (prop (SideDrawerAuth.getZohoSession st') "expiresAt") = false) as ->.
        { apply not_true_is_false. rewrite Hexp. lia. }
        reflexivity.
      * intros Hge. unfold SideDrawerAuth.checkConnection.
        apply Hexp in Hge. rewrite Hge, andb_false_r.
        destruct (truthy (SideDrawerAuth.getRefreshToken st')) eqn:Hs.
        -- split; [done |]. by apply refreshAccessToken_sent.
        -- unfold SideDrawerAuth.refreshAccessToken. by rewrite Hs.
    + intros Hl. apply Hexp. rewrite bufferTime_value. lia.
  - split; [| by intros [? | ?]]. intros _ _.
    split; [done |]. split; [done |].
    unfold SideDrawerAuth.getRefreshToken, getItem. cbn. by rewrite lookup_delete_eq.
  - split; [done |]. intros _.
    set (st' := SideDrawerAuth.showConnectedStatus _).
    assert (Hrt : SideDrawerAuth.getRefreshToken st' = SideDrawerAuth.getRefreshToken st)
      by done.
    assert (Hexp : forall t,
              SideDrawerAuth.isTokenExpired t
                (prop (SideDrawerAuth.getZohoSession st') "expiresAt") = true
              <-> t >= SideDrawerAuth.now e + lifetime * 1000 - SideDrawerAuth.bufferTime).
    { intros t. apply isTokenExpired_iff. }
    split; [done |]. split; [done |]. split; [exact Hrt |]. split.
    + intros e'. split.
      * intros Hlt. unfold SideDrawerAuth.checkConnection.
        assert (SideDrawerAuth.isTokenExpired (SideDrawerAuth.now e')
                  (prop (SideDrawerAuth.getZohoSession st') "expiresAt") = false) as ->.
        { apply not_true_is_false. rewrite Hexp. lia. }
        reflexivity.
      * intros Hge. unfold SideDrawerAuth.checkConnection.
        apply Hexp in Hge. rewrite Hge, andb_false_r, Hrt, Ht.
        split; [done |]. rewrite refreshAccessToken_sent by by rewrite Hrt.
        by rewrite Hrt.
    + intros Hl. apply Hexp. rewrite bufferTime_value. lia.
Qed.

(** A granted refresh without a new refresh token: the session is kept until
    five minutes before the hour is over.  A granted refresh with a new
    refresh token: the check made after that goes to the token endpoint with
    the new token. *)
Lemma refreshed_session_window_witness :
  let e := AuthScenario.env 1701234567890 AuthScenario.granting in
  let st := AuthScenario.loaded (AuthScenario.session "t1" 1701230000000) (Some "r1") in
  let st' := SideDrawerAuth.refreshAccessToken e st in
  let rotating := AuthScenario.env 1701234567890 AuthScenario.rotating in
  let later := AuthScenario.env (1701234567890 + 3300000) AuthScenario.offline in
  (SideDrawerAuth.shown st' = SideDrawerAuth.Connected
   /\ SideDrawerAuth.checkConnection
        (AuthScenario.env (1701234567890 + 3299999) AuthScenario.offline) st' = st')
  /\ SideDrawerAuth.sent
       (SideDrawerAuth.checkConnection later (SideDrawerAuth.refreshAccessToken rotating st))
     = [SideDrawerAuth.refreshRequest later (JStr "r2");
        SideDrawerAuth.refreshRequest rotating (JStr "r1")].
Proof.
  cbv zeta. split.
  - destruct (refreshed_session_window
                (AuthScenario.env 1701234567890 AuthScenario.granting)
                (AuthScenario.loaded (AuthScenario.session "t1" 1701230000000) (Some "r1"))
                {| status := 200;
                   json := Normal (JObj [("access_token", JStr "t2");
                                         ("expires_in", JNum (Fin 3600));
                                         ("token_type", JStr "Bearer")]) |}
                (JObj [("access_token", JStr "t2"); ("expires_in", JNum (Fin 3600));
                       ("token_type", JStr "Bearer")])
                3600 eq_refl eq_refl eq_refl eq_refl eq_refl) as [_ H].
    destruct (H (or_introl eq_refl)) as (H1 & _ & _ & H2 & _).
    split; [exact H1 |].
    destruct (H2 (AuthScenario.env (1701234567890 + 3299999) AuthScenario.offline)) as [H3 _].
    apply H3. vm_compute. reflexivity.
  - destruct (refreshed_session_window
                (AuthScenario.env 1701234567890 AuthScenario.rotating)
                (AuthScenario.loaded (AuthScenario.session "t1" 1701230000000) (Some "r1"))
                {| status := 200;
                   json := Normal (JObj [("access_token", JStr "t2");
                                         ("refresh_token", JStr "r2");
                                         ("expires_in", JNum (Fin 3600));
                                         ("token_type", JStr "Bearer")]) |}
                (JObj [("access_token", JStr "t2"); ("refresh_token", JStr "r2");
                       ("expires_in", JNum (Fin 3600)); ("token_type", JStr "Bearer")])
                3600 eq_refl eq_refl eq_refl eq_refl eq_refl) as [_ H].
    destruct (H (or_intror eq_refl)) as (_ & _ & H1 & H2 & _).
    destruct (H2 (AuthScenario.env (1701234567890 + 3300000) AuthScenario.offline)) as [_ H3].
    destruct H3 as [_ H4]; [vm_compute; discriminate |].
    rewrite H4, H1. reflexivity.
Defined.

(** ** The tenant wizards *)




Lemma findStep_updateProcessStep (k status : string) (steps : list (string * string)) :
  TenantWizard.findStep k (TenantWizard.updateProcessStep k status steps) = Some status.
Proof.
  induction steps as [| [key old] rest IH]; cbn.
  - by rewrite String.eqb_refl.
  - destruct (String.eqb key k) eqn:E; cbn; by rewrite E.
Qed.

Lemma findStep_updateProcessStep_other (k k' status : string) (steps : list (string * string)) :
  k' <> k ->
  TenantWizard.findStep k' (TenantWizard.updateProcessStep k status steps)
  = TenantWizard.findStep k' steps.
Proof.
  intros Hne. induction steps as [| [key old] rest IH]; cbn.
  - assert (String.eqb k k' = false) as -> by (apply String.eqb_neq; congruence). done.
  - destruct (String.eqb key k) eqn:E; cbn.
    + apply String.eqb_eq in E as ->.
      assert (String.eqb k k' = false) as -> by (apply String.eqb_neq; congruence). done.
    + by rewrite IH.
Qed.

Lemma findStep_None (k : string) (steps : list (string * string)) :
  TenantWizard.findStep k steps = None <-> ~ In k (map fst steps).
Proof.
  induction steps as [| [key old] rest IH]; cbn.
  - tauto.
  - destruct (String.eqb key k) eqn:E.
    + apply String.eqb_eq in E. split; [done | tauto].
    + apply String.eqb_neq in E. rewrite IH. tauto.
Qed.

Lemma updateProcessStep_keys (k status : string) (steps : list (string * string)) :
  map fst (TenantWizard.updateProcessStep k status steps)
  = match TenantWizard.findStep k steps with
    | Some _ => map fst steps
    | None => List.app (map fst steps) [k]
    end.
Proof.
  induction steps as [| [key old] rest IH]; cbn; [done |].
  destruct (String.eqb key k) eqn:E; cbn; [done |].
  rewrite IH. by destruct (TenantWizard.findStep k rest).
Qed.

(** X19.  The list of process steps.  Whatever the calls of
    [updateProcessStep] made on the list the wizard starts with (the empty
    one): no key is listed twice, the keys are those of the calls, and the
    status shown for a key is the one of the last call for it. *)
Theorem updateProcessStep_calls (calls : list (string * string)) :
  let processSteps :=
    fold_left (fun steps call => TenantWizard.updateProcessStep (fst call) (snd call) steps)
              calls [] in
  List.NoDup (map fst processSteps)
  /\ (forall key, In key (map fst processSteps) <-> In key (map fst calls))
  /\ (forall key,
        TenantWizard.findStep key processSteps = TenantWizard.findStep key (List.rev calls)).
Proof.
  cbv zeta. induction calls as [| [k status] calls IH] using rev_ind.
  - cbn. split; [constructor |]. by split.
  - rewrite fold_left_app, List.rev_app_distr. cbn [fold_left fst snd List.rev List.app].
    set (steps := fold_left _ calls []) in *.
    destruct IH as (Hnd & Hin & Hfind).
    split; [| split].
    + rewrite updateProcessStep_keys.
      destruct (TenantWizard.findStep k steps) eqn:E; [done |].
      apply findStep_None in E. clear -Hnd E.
      induction (map fst steps) as [| x l IHl]; cbn.
      * constructor; [by intros [] | constructor].
      * inversion Hnd; subst. constructor.
        -- rewrite in_app_iff. cbn. intros [? | [-> | []]]; [done |]. apply E. by left.
        -- apply IHl; [done |]. intros ?. apply E. by right.
    + intros key. rewrite updateProcessStep_keys, map_app, in_app_iff. cbn.
      destruct (TenantWizard.findStep k steps) eqn:E.
      * rewrite Hin. split; [tauto |]. intros [? | [<- | []]]; [done |].
        apply Hin. destruct (in_dec string_dec k (map fst steps)) as [? | Hn]; [done |].
        apply findStep_None in Hn. congruence.
      * rewrite in_app_iff, Hin. cbn. tauto.
    + intros key. cbn [TenantWizard.findStep].
      destruct (String.eqb k key) eqn:E.
      * apply String.eqb_eq in E as ->. apply findStep_updateProcessStep.
      * apply String.eqb_neq in E. rewrite findStep_updateProcessStep_other by congruence.
        apply Hfind.
Qed.

Lemma get_opt_prop (v : JValue) (k : string) : get_opt v k = prop v k.
Proof. by destruct v. Qed.

(** X20.  What follows a created tenant.  [showSuccess] opens the setup form
    only for a tenant with an id, with the setup API loaded and the
    permission check passed.  Given those, in embedded mode it opens the form
    exactly when [getCredentials] does not resolve from the shared record;
    in standalone mode the permission check passes for everyone and
    [getSetupConfig] is null, so the form is opened every time, also when a
    configuration has been saved before. *)
Theorem showSuccess_opens_setup {S : Type}
    (apiLoaded : bool) (b : SetupAPI.Browser) (zoho : SetupAPI.ZohoSDK S)
    (tenant : JValue) (st : SetupAPI.Store S) :
  let opens := TenantWizard.opensSetupAfterSuccess apiLoaded b zoho tenant st in
  let hasPermission :=
    SetupAPI.checkUserHasManageOrgPermission b zoho (SetupAPI.localStorage st) in
  (opens = true ->
     truthy tenant && truthy (prop tenant "id") = true
     /\ apiLoaded = true /\ hasPermission = true)
  /\ (truthy tenant && truthy (prop tenant "id") = true -> apiLoaded = true ->
      (SetupAPI.isStandaloneMode b = true -> opens = true)
      /\ (SetupAPI.isStandaloneMode b = false ->
          (opens = true <->
           hasPermission = true
           /\ prop (SetupAPI.getCredentials b zoho st) "source" <> JStr "custom_module"))).
Proof.
  cbv zeta. unfold TenantWizard.opensSetupAfterSuccess. split.
  - destruct (truthy tenant && truthy (prop tenant "id")); [| done].
    destruct apiLoaded; [| done].
    by destruct (SetupAPI.checkUserHasManageOrgPermission b zoho _).
  - intros -> ->. split.
    + intros Hb. unfold SetupAPI.checkUserHasManageOrgPermission, SetupAPI.getSetupConfig.
      by rewrite Hb.
    + intros Hb. unfold SetupAPI.getCredentials. rewrite Hb. cbn [negb].
      unfold SetupAPI.usable. rewrite get_opt_prop.
      destruct (SetupAPI.checkUserHasManageOrgPermission b zoho _).
      * destruct (truthy (SetupAPI.getSetupConfig b zoho (SetupAPI.crm st))
                  && truthy (prop (SetupAPI.getSetupConfig b zoho (SetupAPI.crm st)) "clientId"))
          eqn:E.
        -- apply andb_prop in E as [-> ->]. cbn. split; [done |]. by intros [_ H].
        -- assert (negb (truthy (SetupAPI.getSetupConfig b zoho (SetupAPI.crm st)))
                   || negb (truthy (prop (SetupAPI.getSetupConfig b zoho (SetupAPI.crm st))
                                         "clientId")) = true) as ->.
           { by destruct (truthy (SetupAPI.getSetupConfig b zoho (SetupAPI.crm st))),
               (truthy (prop (SetupAPI.getSetupConfig b zoho (SetupAPI.crm st)) "clientId")). }
           split; [| done]. intros _. split; [done |].
           unfold SetupAPI.widgetVariablesStep.
           destruct (SetupAPI.hasConfig zoho); [| done].
           destruct (SetupAPI.getVariables zoho); [| done].
           by destruct (SetupAPI.usable _ _).
      * split; [done |]. by intros [? _].
Qed.

Lemma showSuccess_opens_setup_witness :
  let tenant := JObj [("id", JStr "tenant-1")] in
  let zoho := Scenario.sdk (Throw "no SDK") Scenario.noVariables in
  match SetupAPI.saveSetupConfig Scenario.standalone zoho Scenario.completeConfig
          (Scenario.emptyStore None) with
  | (Normal _, st) =>
      TenantWizard.opensSetupAfterSuccess true Scenario.standalone zoho tenant st = true
  | (Throw _, _) => False
  end.
Proof.
  cbv zeta.
  destruct (SetupAPI.saveSetupConfig Scenario.standalone _ Scenario.completeConfig
              (Scenario.emptyStore None)) as [[v | m] st] eqn:E.
  - refine (proj1 (proj2 (showSuccess_opens_setup true Scenario.standalone
                            (Scenario.sdk (Throw "no SDK") Scenario.noVariables)
                            (JObj [("id", JStr "tenant-1")]) st) eq_refl eq_refl) eq_refl).
  - vm_compute in E. discriminate.
Defined.
